(** * genai-cost-estimator: the meeting analyzer and the CSV converter

    A shallow embedding of [meeting_analyzer.py] and [csv2json.py].

    Python values produced by [json.loads] are an inductive type, exceptions
    are an error monad, the file system is a finite map from paths to
    contents, and the collaborators the scripts only call (the JSON parser,
    Python's string-to-float conversion, the text splitter, the generation
    service, pandas) are the fields of type classes.  Floats are the
    kernel's binary64 numbers, which is what a Python [float] is. *)

From Stdlib Require Import ZArith QArith Qabs String Ascii List Lia Floats.
From stdpp Require Import gmap strings.
From Equations Require Import Equations.

Set Warnings "-inexact-float,-register-all,-abstract-large-number".

Local Open Scope string_scope.
Local Open Scope Z_scope.

(** ** Python values, exceptions and the operations the scripts use *)

Module Py.

Inductive exn : Type :=
| KeyError (key : string)
| TypeError
| AttributeError
| ValueError (msg : string)
| OverflowError
| ZeroDivisionError
| FileNotFoundError (msg : string)
| JSONDecodeError
| ServiceError (msg : string).

Inductive result (A : Type) : Type :=
| Ok (a : A)
| Raise (e : exn).

Arguments Ok {A} a.
Arguments Raise {A} e.

Definition bind {A B : Type} (m : result A) (k : A -> result B) : result B :=
  match m with
  | Ok a => k a
  | Raise e => Raise e
  end.

Notation "x <- m ;; k" := (bind m (fun x => k))
  (at level 100, m at next level, right associativity).

(** What [json.loads] builds: [None], [bool], [int], [float], [str], [list]
    and [dict].  A dict is kept as its items in insertion order; the first
    binding of a key is the one the dict holds. *)
Inductive value : Type :=
| VNone
| VBool (b : bool)
| VInt (z : Z)
| VFloat (f : float)
| VStr (s : string)
| VList (items : list value)
| VDict (items : list (string * value)).

Fixpoint lookup_key (k : string) (items : list (string * value)) : option value :=
  match items with
  | [] => None
  | (k', v) :: rest => if String.eqb k' k then Some v else lookup_key k rest
  end.

(** [v[k]] for a string key. *)
Definition getitem (v : value) (k : string) : result value :=
  match v with
  | VDict items =>
      match lookup_key k items with
      | Some x => Ok x
      | None => Raise (KeyError k)
      end
  | _ => Raise TypeError
  end.

(** [v.get(k, default)]: only a dict has the method. *)
Definition get (v : value) (k : string) (default : value) : result value :=
  match v with
  | VDict items =>
      match lookup_key k items with
      | Some x => Ok x
      | None => Ok default
      end
  | _ => Raise AttributeError
  end.

(** [v == s] for a string literal [s]. *)
Definition eq_str (v : value) (s : string) : bool :=
  match v with
  | VStr s' => String.eqb s' s
  | _ => false
  end.

Fixpoint chars (s : string) : list value :=
  match s with
  | EmptyString => []
  | String c rest => VStr (String c EmptyString) :: chars rest
  end.

Fixpoint keys (seen : list string) (items : list (string * value)) : list value :=
  match items with
  | [] => []
  | (k, _) :: rest =>
      if existsb (String.eqb k) seen then keys seen rest
      else VStr k :: keys (k :: seen) rest
  end.

(** [for x in v]: a list gives its items, a string its characters, a dict
    its keys; anything else is not iterable. *)
Definition iter (v : value) : result (list value) :=
  match v with
  | VList items => Ok items
  | VStr s => Ok (chars s)
  | VDict items => Ok (keys [] items)
  | _ => Raise TypeError
  end.

Definition newline : string := String "010"%char EmptyString.

Fixpoint strings_of (vs : list value) : result (list string) :=
  match vs with
  | [] => Ok []
  | VStr s :: rest => ss <- strings_of rest ;; Ok (s :: ss)
  | _ :: _ => Raise TypeError
  end.

(** [sep.join(vs)]: every item has to be a [str]. *)
Definition join (sep : string) (vs : list value) : result string :=
  ss <- strings_of vs ;; Ok (String.concat sep ss).

(** *** Floats *)

Definition spec_of_Z (z : Z) : spec_float :=
  match z with
  | Z0 => S754_zero false
  | Zpos p => S754_finite false p 0
  | Zneg p => S754_finite true p 0
  end.

Definition is_infinite (x : spec_float) : bool :=
  match x with
  | S754_infinity _ => true
  | _ => false
  end.

(** [float(z)] for an [int]: the nearest binary64 number, ties to even;
    [OverflowError] when that is out of range. *)
Definition float_of_int (z : Z) : result float :=
  let x := binary_normalize prec emax z 0 false in
  if is_infinite x then Raise OverflowError else Ok (SF2Prim x).

(** The exact conversion of an [int] below [2^53]. *)
Definition float_of_small (z : Z) : float :=
  match z with
  | Z0 => 0%float
  | Zpos _ => PrimFloat.of_uint63 (Uint63.of_Z z)
  | Zneg _ => PrimFloat.opp (PrimFloat.of_uint63 (Uint63.of_Z (- z)))
  end.

Definition small (z : Z) : bool := Z.abs z <? 2 ^ 53.

(** [a / b] for two [int]s (true division).  As in CPython's
    [long_true_divide]: operands below [2^53] are converted exactly and
    divided as doubles; otherwise the quotient of the integers is rounded
    once, and a quotient out of range is an [OverflowError]. *)
Definition truediv (a b : Z) : result float :=
  if b =? 0 then Raise ZeroDivisionError
  else if small a && small b then
    Ok (PrimFloat.div (float_of_small a) (float_of_small b))
  else
    let q := SFdiv prec emax (spec_of_Z a) (spec_of_Z b) in
    if is_infinite q then Raise OverflowError else Ok (SF2Prim q).

End Py.

Import Py.

(** ** Collaborators

    Code the scripts call and do not contain. *)

(** [json.loads] (and [json.load] on a file's text): [None] stands for a
    [JSONDecodeError].  [float(s)] on a [str]: [None] stands for the
    [ValueError] of a string that is not a number. *)
Class Runtime : Type := {
  json_loads : string -> option value;
  float_of_str : string -> option float
}.

(** [RecursiveCharacterTextSplitter(chunk_size, chunk_overlap,
    length_function=len).split_text]. *)
Class TextSplitter : Type := {
  split_text : nat -> nat -> string -> list string
}.

Record usage_metadata : Type := {
  prompt_token_count : Z;
  candidates_token_count : Z
}.

(** A response of the generation service: its text, and the usage metadata
    when the response has the attribute. *)
Record response : Type := {
  text : string;
  usage : option usage_metadata
}.

(** [model.generate_content(prompt)]: the service has a state of its own,
    and a call either answers or raises. *)
Class GenerativeModel (M : Type) : Type := {
  generate_content : M -> string -> M * result response
}.

(** The file system: the text of every file that exists, by path. *)
Abbreviation files := (gmap string string).

Definition open_read (fs : files) (path : string) : result string :=
  match fs !! path with
  | Some content => Ok content
  | None => Raise (FileNotFoundError path)
  end.

(** ** meeting_analyzer.py *)

Record price_rates : Type := {
  input_rate : float;
  output_rate : float
}.

Record token_usage : Type := {
  input_tokens : Z;
  output_tokens : Z
}.

Record combined_results : Type := {
  summary : string;
  actions : list value;
  positives : list value;
  improvements : list value
}.

Record cost_estimate : Type := {
  input_cost : float;
  output_cost : float;
  total_cost : float
}.

Definition target_model : string := "Gemini 1.5 Pro".

Definition json_load {RT : Runtime} (content : string) : result value :=
  match json_loads content with
  | Some v => Ok v
  | None => Raise JSONDecodeError
  end.

(** [float(v)]. *)
Definition py_float {RT : Runtime} (v : value) : result float :=
  match v with
  | VFloat f => Ok f
  | VInt z => float_of_int z
  | VBool b => Ok (if b then 1%float else 0%float)
  | VStr s =>
      match float_of_str s with
      | Some f => Ok f
      | None => Raise (ValueError "could not convert string to float")
      end
  | _ => Raise TypeError
  end.

(** [{"input": float(model["Input"]), "output": float(model["Output"])}]. *)
Definition rates_of {RT : Runtime} (model : value) : result price_rates :=
  i <- getitem model "Input" ;;
  fi <- py_float i ;;
  o <- getitem model "Output" ;;
  fo <- py_float o ;;
  Ok {| input_rate := fi; output_rate := fo |}.

(** The [for model in prices] loop of [_load_prices] and the [raise] after
    it. *)
Fixpoint find_prices {RT : Runtime} (models : list value) : result price_rates :=
  match models with
  | [] => Raise (ValueError "Gemini 1.5 Pro pricing not found in price file")
  | model :: rest =>
      name <- getitem model "Model" ;;
      if eq_str name "Gemini 1.5 Pro" then rates_of model
      else find_prices rest
  end.

Definition _load_prices {RT : Runtime} (fs : files) (price_file : string)
  : result price_rates :=
  content <- open_read fs price_file ;;
  prices <- json_load content ;;
  models <- iter prices ;;
  find_prices models.

Record MeetingAnalyzer (M : Type) : Type := {
  model : M;
  prices : price_rates
}.

Arguments model {M} _.
Arguments prices {M} _.

(** [__init__]: [m] is the handle [genai.GenerativeModel] returns. *)
Definition MeetingAnalyzer_init {RT : Runtime} {M : Type} (m : M) (fs : files)
  (price_file : string) : result (MeetingAnalyzer M) :=
  p <- _load_prices fs price_file ;;
  Ok {| model := m; prices := p |}.

Definition chunk_size : nat := 30000.
Definition chunk_overlap : nat := 1000.

Definition prompt_prefix : string :=
"Analyze the following meeting transcript and provide:
        1. A clear and concise summary of the main points discussed
        2. Key decisions or actions agreed upon, including who is responsible and any deadlines
        3. What went well in the meeting
        4. What could be improved about the meeting

        Transcript:
        ".

Definition prompt_suffix : string :=
"

        Please format your response in JSON with these keys:
        - summary
        - actions
        - positives
        - improvements".

(** [prompt_template.format(transcript=chunk)]. *)
Definition prompt (chunk : string) : string :=
  (prompt_prefix ++ chunk ++ prompt_suffix)%string.

(** What the loop over the chunks carries: the parsed results, the token
    counts, and the warnings printed so far. *)
Record run_state : Type := {
  all_results : list value;
  total_tokens : token_usage;
  stdout : list string
}.

Definition initial_state : run_state :=
  {| all_results := [];
     total_tokens := {| input_tokens := 0; output_tokens := 0 |};
     stdout := [] |}.

(** [if hasattr(response, 'usage_metadata'): total_tokens[..] += ..]. *)
Definition count_tokens (r : response) (t : token_usage) : token_usage :=
  match usage r with
  | Some u =>
      {| input_tokens := input_tokens t + prompt_token_count u;
         output_tokens := output_tokens t + candidates_token_count u |}
  | None => t
  end.

Definition warning (r : response) : string :=
  ("Warning: Could not parse LLM output as JSON: "
     ++ String.substring 0 100 (text r) ++ "...")%string.

(** The body of the loop, once the response has arrived. *)
Definition process_response {RT : Runtime} (st : run_state) (r : response)
  : run_state :=
  let tokens := count_tokens r (total_tokens st) in
  match json_loads (text r) with
  | Some parsed_result =>
      {| all_results := (all_results st ++ [parsed_result])%list;
         total_tokens := tokens;
         stdout := stdout st |}
  | None =>
      {| all_results := all_results st;
         total_tokens := tokens;
         stdout := (stdout st ++ [warning r])%list |}
  end.

(** [for chunk in chunks]: the state the loop reaches, and the exception of
    the service that ended it early, if any. *)
Fixpoint process_chunks {RT : Runtime} {M : Type} {GM : GenerativeModel M}
  (m : M) (chunks : list string) (st : run_state)
  : M * run_state * option exn :=
  match chunks with
  | [] => (m, st, None)
  | chunk :: rest =>
      match generate_content m (prompt chunk) with
      | (m', Ok r) => process_chunks m' rest (process_response st r)
      | (m', Raise e) => (m', st, Some e)
      end
  end.

(** [r.get("summary", "") for r in all_results]. *)
Fixpoint summaries (rs : list value) : result (list value) :=
  match rs with
  | [] => Ok []
  | r :: rest =>
      s <- get r "summary" (VStr "") ;;
      ss <- summaries rest ;;
      Ok (s :: ss)
  end.

(** [[x for r in all_results for x in r.get(field, [])]]. *)
Fixpoint gather (field : string) (rs : list value) : result (list value) :=
  match rs with
  | [] => Ok []
  | r :: rest =>
      v <- get r field (VList []) ;;
      xs <- iter v ;;
      more <- gather field rest ;;
      Ok (xs ++ more)%list
  end.

Definition combine_results (rs : list value) : result combined_results :=
  ss <- summaries rs ;;
  s <- join newline ss ;;
  a <- gather "actions" rs ;;
  p <- gather "positives" rs ;;
  i <- gather "improvements" rs ;;
  Ok {| summary := s; actions := a; positives := p; improvements := i |}.

(** [(tokens / 1000) * rate]. *)
Definition cost_of (tokens : Z) (rate : float) : result float :=
  q <- truediv tokens 1000 ;;
  Ok (PrimFloat.mul q rate).

Definition calculate_costs (t : token_usage) (p : price_rates)
  : result cost_estimate :=
  ic <- cost_of (input_tokens t) (input_rate p) ;;
  oc <- cost_of (output_tokens t) (output_rate p) ;;
  tc <- (a <- cost_of (input_tokens t) (input_rate p) ;;
         b <- cost_of (output_tokens t) (output_rate p) ;;
         Ok (PrimFloat.add a b)) ;;
  Ok {| input_cost := ic; output_cost := oc; total_cost := tc |}.

(** The merge and the costs, from the state the loop ends in. *)
Definition finish (st : run_state) (p : price_rates)
  : result (combined_results * cost_estimate) :=
  combined <- combine_results (all_results st) ;;
  costs <- calculate_costs (total_tokens st) p ;;
  Ok (combined, costs).

(** [analyze_meeting]: the state of the service afterwards, the warnings
    printed, and the pair the method returns or the exception it raises. *)
Definition analyze_meeting {RT : Runtime} {TS : TextSplitter} {M : Type}
  {GM : GenerativeModel M} (self : MeetingAnalyzer M) (fs : files)
  (transcript_file : string)
  : M * list string * result (combined_results * cost_estimate) :=
  match open_read fs transcript_file with
  | Raise e => (model self, [], Raise e)
  | Ok transcript =>
      let chunks := split_text chunk_size chunk_overlap transcript in
      match process_chunks (model self) chunks initial_state with
      | (m', st, Some e) => (m', stdout st, Raise e)
      | (m', st, None) => (m', stdout st, finish st (prices self))
      end
  end.

(** ** The chunker *)

Fixpoint drop_chars (n : nat) (s : string) : string :=
  match n, s with
  | O, _ => s
  | S _, EmptyString => EmptyString
  | S n', String _ rest => drop_chars n' rest
  end.

Lemma drop_chars_length (n : nat) (s : string) :
  String.length (drop_chars n s) = (String.length s - n)%nat.
Proof.
  revert s. induction n as [|n IH]; intros [|c s]; simpl; auto.
Qed.

(** Modelled from the spec: the windows of the chunker (section 4.3), which
    the analyzer gets from a text-splitting library that the sources do not
    contain.  A window holds at most [size] characters; the next window
    starts [S k] characters later, so that consecutive windows share
    [size - S k] characters; the window that reaches the end of the text is
    the last one. *)
Equations? windows (size k : nat) (t : string) : list string
  by wf (String.length t) lt :=
  windows size k t with le_lt_dec (String.length t) size := {
    | left _ := [t] ;
    | right _ := String.substring 0 size t :: windows size k (drop_chars (S k) t)
  }.
Proof.
  pose proof (drop_chars_length (S k) t) as Hlen. simpl in *. lia.
Qed.

(** Modelled from the spec: the chunker (section 4.3), given the text, the
    maximum chunk length and the overlap length.  An overlap that is not
    below the maximum length leaves no room to advance: no chunking. *)
Definition chunker (size overlap : nat) (t : string) : option (list string) :=
  if (overlap <? size)%nat then Some (windows size (size - overlap - 1) t)
  else None.

(** ** csv2json.py *)

(** [Path(p).resolve()] and [Path.with_suffix]. *)
Class PathLib : Type := {
  resolve : string -> string;
  with_suffix : string -> string -> string
}.

(** pandas: [read_csv] on the text of the source, and
    [to_json(orient="records", indent=4)]. *)
Class Pandas : Type := {
  DataFrame : Type;
  read_csv : string -> result DataFrame;
  to_json : DataFrame -> string
}.

(** [open(path, "w")]: [Some e] when the open raises [e].  Whether a path
    can be opened for writing is decided by what the file map does not hold
    (the directories, the permissions), which the script never changes; an
    open that succeeds truncates the file, and the write that follows is
    taken to complete. *)
Class WriteAccess : Type := {
  open_write : string -> option exn
}.

(** What the script does besides returning, in order. *)
Inductive event : Type :=
| ReadCsv (path : string)
| WriteFile (path content : string)
| Print (line : string).

(** [args.output] counts as given when it is a non-empty string. *)
Definition given (output : option string) : option string :=
  match output with
  | Some EmptyString => None
  | other => other
  end.

(** The script, from the parsed arguments on: the file system afterwards,
    the events, and whether it ended normally. *)
Definition csv2json {PL : PathLib} {PD : Pandas} {DK : WriteAccess}
  (fs : files) (source : string) (output : option string)
  : files * list event * result unit :=
  let source_path := resolve source in
  match fs !! source_path with
  | None =>
      (fs, [],
       Raise (FileNotFoundError ("Source file not found: " ++ source_path)))
  | Some content =>
      let output_path :=
        match given output with
        | Some o => resolve o
        | None => with_suffix source_path ".json"
        end in
      match read_csv content with
      | Raise e => (fs, [ReadCsv source_path], Raise e)
      | Ok df =>
          let json_output := to_json df in
          match open_write output_path with
          | Some e => (fs, [ReadCsv source_path], Raise e)
          | None =>
              (<[output_path := json_output]> fs,
               [ReadCsv source_path;
                WriteFile output_path json_output;
                Print ("JSON data has been written to " ++ output_path)],
               Ok tt)
          end
      end
  end.

(** ** main of meeting_analyzer.py *)

(** [genai.configure(api_key=...)] followed by
    [genai.GenerativeModel(name)]: the handle of the service. *)
Class Provider (M : Type) : Type := {
  connect : string -> string -> M
}.

(** What an f-string makes of a value that is not a [str], and the format
    [:.4f] of a float. *)
Class Formatting : Type := {
  repr : value -> string;
  format_4f : float -> string
}.

(** [f"{v}"]: a [str] is printed as it is. *)
Definition py_str {FM : Formatting} (v : value) : string :=
  match v with
  | VStr s => s
  | _ => repr v
  end.

Definition price_file_path : string :=
  "/Users/julian/expts/genai-cost-estimator/llm-prices-20241120.json".

Definition transcript_file_path : string :=
  "/Users/julian/expts/genai-cost-estimator/data/meeting-transcript-1.md".

Definition bullet {FM : Formatting} (v : value) : string :=
  ("- " ++ py_str v)%string.

(** The [print] calls of [main] after the analysis, one string a call. *)
Definition report {FM : Formatting} (results : combined_results)
  (costs : cost_estimate) : list string :=
  ([(newline ++ "=== Meeting Analysis ===")%string;
    (newline ++ "Summary:")%string;
    summary results;
    (newline ++ "Actions Agreed:")%string]
   ++ map bullet (actions results)
   ++ [(newline ++ "What Went Well:")%string]
   ++ map bullet (positives results)
   ++ [(newline ++ "Areas for Improvement:")%string]
   ++ map bullet (improvements results)
   ++ [(newline ++ "=== Cost Analysis ===")%string;
       ("Input cost: $" ++ format_4f (input_cost costs))%string;
       ("Output cost: $" ++ format_4f (output_cost costs))%string;
       ("Total cost: $" ++ format_4f (total_cost costs))%string])%list.

(** [main]: the environment variables and the file system go in; out come
    the state of the service, if one was connected, what was printed, and
    whether [main] ended normally. *)
Definition main {RT : Runtime} {TS : TextSplitter} {FM : Formatting}
  {M : Type} {GM : GenerativeModel M} {PV : Provider M}
  (env : gmap string string) (fs : files)
  : option M * list string * result unit :=
  match env !! "GOOGLE_API_KEY" with
  | None | Some EmptyString =>
      (None, [],
       Raise (ValueError "Please set GOOGLE_API_KEY environment variable"))
  | Some api_key =>
      match MeetingAnalyzer_init (connect api_key "gemini-1.5-pro") fs
              price_file_path with
      | Raise e => (Some (connect api_key "gemini-1.5-pro"), [], Raise e)
      | Ok analyzer =>
          match analyze_meeting analyzer fs transcript_file_path with
          | (m', printed, Raise e) => (Some m', printed, Raise e)
          | (m', printed, Ok (results, costs)) =>
              (Some m', (printed ++ report results costs)%list, Ok tt)
          end
      end
  end.

(** ** The vocabulary of the properties

    What the statements below speak of: records of the price table, the
    responses of a run, what a chunk brings to the merge, and the exact
    value of a float. *)

(** A record with a model name that is not the target model. *)
Definition other_model (r : value) : Prop :=
  exists name, getitem r "Model" = Ok name /\ eq_str name target_model = false.

(** A record whose model name is the target model. *)
Definition is_target (r : value) : Prop :=
  exists name, getitem r "Model" = Ok name /\ eq_str name target_model = true.

(** A rate as the price file gives it, a number or a numeric string, and
    the float that [float()] makes of it. *)
Inductive numeric {RT : Runtime} : value -> float -> Prop :=
| numeric_float (f : float) : numeric (VFloat f) f
| numeric_int (z : Z) (f : float) : float_of_int z = Ok f -> numeric (VInt z) f
| numeric_str (s : string) (f : float) :
    float_of_str s = Some f -> numeric (VStr s) f.

(** The service, asked for the chunks in order from state [m], answers with
    the responses [rs] and is left in state [m']. *)
Inductive answers {M : Type} {GM : GenerativeModel M}
  : M -> list string -> list response -> M -> Prop :=
| answers_nil (m : M) : answers m [] [] m
| answers_cons (m m1 m' : M) (chunk : string) (r : response)
    (chunks : list string) (rs : list response) :
    generate_content m (prompt chunk) = (m1, Ok r) ->
    answers m1 chunks rs m' ->
    answers m (chunk :: chunks) (r :: rs) m'.

(** The parsed results of the responses that parse, in order. *)
Fixpoint parsed_results {RT : Runtime} (rs : list response) : list value :=
  match rs with
  | [] => []
  | r :: rest =>
      match json_loads (text r) with
      | Some v => v :: parsed_results rest
      | None => parsed_results rest
      end
  end.

(** The token counts of the responses that carry usage metadata, summed. *)
Fixpoint used_tokens (rs : list response) : token_usage :=
  match rs with
  | [] => {| input_tokens := 0; output_tokens := 0 |}
  | r :: rest => count_tokens r (used_tokens rest)
  end.

Definition add_tokens (a b : token_usage) : token_usage :=
  {| input_tokens := input_tokens a + input_tokens b;
     output_tokens := output_tokens a + output_tokens b |}.

Definition process_responses {RT : Runtime} (st : run_state)
  (rs : list response) : run_state :=
  fold_left process_response rs st.

(** What one chunk brings to the merge. *)
Record analysis : Type := {
  a_summary : string;
  a_actions : list value;
  a_positives : list value;
  a_improvements : list value
}.

(** The merge as the specification words it: the summaries joined by
    newlines, each list field concatenated, all in chunk order. *)
Definition merge (parts : list analysis) : combined_results :=
  {| summary := String.concat newline (map a_summary parts);
     actions := concat (map a_actions parts);
     positives := concat (map a_positives parts);
     improvements := concat (map a_improvements parts) |}.

(** The field is a string, or it is missing and stands for the empty one. *)
Definition text_field (items : list (string * value)) (k s : string) : Prop :=
  lookup_key k items = Some (VStr s) \/ (lookup_key k items = None /\ s = "").

(** The field is a list, or it is missing and stands for the empty one. *)
Definition list_field (items : list (string * value)) (k : string)
  (l : list value) : Prop :=
  lookup_key k items = Some (VList l) \/ (lookup_key k items = None /\ l = []).

(** A parsed result that is an object; [a] is what its fields hold, with
    the empty default for a field it lacks. *)
Definition holds_or_lacks (r : value) (a : analysis) : Prop :=
  exists items,
    r = VDict items
    /\ text_field items "summary" (a_summary a)
    /\ list_field items "actions" (a_actions a)
    /\ list_field items "positives" (a_positives a)
    /\ list_field items "improvements" (a_improvements a).

(** A parsed result with all four fields present. *)
Definition holds (r : value) (a : analysis) : Prop :=
  exists items,
    r = VDict items
    /\ lookup_key "summary" items = Some (VStr (a_summary a))
    /\ lookup_key "actions" items = Some (VList (a_actions a))
    /\ lookup_key "positives" items = Some (VList (a_positives a))
    /\ lookup_key "improvements" items = Some (VList (a_improvements a)).

(** The rational that a finite float is, exactly. *)
Definition exact_value (f : float) : option Q :=
  match Prim2SF f with
  | S754_zero _ => Some 0%Q
  | S754_finite s m e =>
      let magnitude :=
        match e with
        | Zneg k => (Zpos m # 2 ^ k)%Q
        | _ => inject_Z (Zpos m * 2 ^ e)
        end in
      Some (if s then Qopp magnitude else magnitude)
  | _ => None
  end.

(** [f] is what [float()] makes of the number [v]: the same float, the
    float of a numeric string, or the float of the integer [v], whose exact
    value is [v] when [v] is below [2^53]. *)
Definition same_number {RT : Runtime} (v : value) (f : float) : Prop :=
  match v with
  | VFloat x => f = x
  | VStr s => float_of_str s = Some f
  | VInt z =>
      float_of_int z = Ok f
      /\ (small z = true ->
          exists q, exact_value f = Some q /\ (q == inject_Z z)%Q)
  | _ => False
  end.

(** [f] is the number [v] exactly: the same float, the float of a numeric
    string, or a float whose exact value is the integer [v]. *)
Definition equal_exactly {RT : Runtime} (v : value) (f : float) : Prop :=
  match v with
  | VFloat x => f = x
  | VStr s => float_of_str s = Some f
  | VInt z => exists q, exact_value f = Some q /\ (q == inject_Z z)%Q
  | _ => False
  end.

(** C6 as the specification words it: loading yields rates that are
    exactly the [Input] and the [Output] of the record [r]. *)
Definition loads_exact_rates {RT : Runtime} (fs : files) (price_file : string)
  (r : value) : Prop :=
  exists p i o,
    _load_prices fs price_file = Ok p
    /\ getitem r "Input" = Ok i
    /\ getitem r "Output" = Ok o
    /\ equal_exactly i (input_rate p)
    /\ equal_exactly o (output_rate p).

(** [f] is a finite float at most [tolerance] away from [q]. *)
Definition within (tolerance : Q) (f : float) (q : Q) : Prop :=
  match exact_value f with
  | Some x => (Qabs (x - q) <= tolerance)%Q
  | None => False
  end.

(** The result with an empty summary and empty lists. *)
Definition empty_result : value :=
  VDict [("summary", VStr ""); ("actions", VList []); ("positives", VList []);
         ("improvements", VList [])].

(** The parsed result of a response, with [empty_result] in the place of a
    response that does not parse. *)
Definition stand_in {RT : Runtime} (r : response) : value :=
  match json_loads (text r) with
  | Some v => v
  | None => empty_result
  end.

(** C1 as the specification words it: the merged output of the run is the
    merge of the responses' results with [empty_result] standing in for
    each response that does not parse. *)
Definition merges_with_stand_ins {RT : Runtime} {TS : TextSplitter} {M : Type}
  {GM : GenerativeModel M} (self : MeetingAnalyzer M) (fs : files)
  (transcript_file : string) (rs : list response) : Prop :=
  exists c costs,
    snd (analyze_meeting self fs transcript_file) = Ok (c, costs)
    /\ combine_results (map stand_in rs) = Ok c.

(** The response does not parse. *)
Definition unparseable {RT : Runtime} (r : response) : bool :=
  match json_loads (text r) with
  | Some _ => false
  | None => true
  end.

(** The warnings of the responses that do not parse, in order. *)
Definition warnings_of {RT : Runtime} (rs : list response) : list string :=
  map warning (List.filter unparseable rs).

(** The value is a [dict]. *)
Definition is_object (v : value) : bool :=
  match v with
  | VDict _ => true
  | _ => false
  end.

(** What [r.get("summary", "")] gives for an object. *)
Definition summary_value (r : value) : value :=
  match r with
  | VDict items =>
      match lookup_key "summary" items with
      | Some v => v
      | None => VStr ""
      end
  | _ => VStr ""
  end.

Definition is_str (v : value) : bool :=
  match v with
  | VStr _ => true
  | _ => false
  end.

(** The token counts one response reports, zero without usage metadata. *)
Definition prompt_tokens (r : response) : Z :=
  match usage r with
  | Some u => prompt_token_count u
  | None => 0
  end.

Definition candidates_tokens (r : response) : Z :=
  match usage r with
  | Some u => candidates_token_count u
  | None => 0
  end.

Definition sum_Z (zs : list Z) : Z := fold_right Z.add 0 zs.

(** The path the converter writes to. *)
Definition output_path_of {PL : PathLib} (source : string)
  (output : option string) : string :=
  match given output with
  | Some o => resolve o
  | None => with_suffix (resolve source) ".json"
  end.

(** The event is a write. *)
Definition is_write (ev : event) : bool :=
  match ev with
  | WriteFile _ _ => true
  | _ => false
  end.

(** The exceptions that scanning the records can raise. *)
Definition scan_exn (e : exn) : bool :=
  match e with
  | KeyError _ | TypeError | ValueError _ | OverflowError => true
  | _ => false
  end.

(** ** Sample collaborators and data

    Stand-ins of the kind the test suite uses: a parser that knows the
    texts below, a service that replays a list of responses, the window
    chunker as the splitter. *)

Module Sample.

Definition dq : string := String "034"%char EmptyString.

Definition quoted (s : string) : string := (dq ++ s ++ dq)%string.

Definition gemini_record : value :=
  VDict [("API Provider", VStr "Google"); ("Model", VStr "Gemini 1.5 Pro");
         ("Input", VFloat 0.075); ("Output", VFloat 0.30)].

Definition prices_text : string :=
  ("[{" ++ quoted "API Provider" ++ ": " ++ quoted "Google" ++ ", "
     ++ quoted "Model" ++ ": " ++ quoted "Gemini 1.5 Pro" ++ ", "
     ++ quoted "Input" ++ ": 0.075, " ++ quoted "Output" ++ ": 0.3}]")%string.

Definition wrong_record : value :=
  VDict [("Model", VStr "Wrong Model"); ("Input", VFloat 1); ("Output", VFloat 1)].

Definition wrong_prices_text : string :=
  ("[{" ++ quoted "Model" ++ ": " ++ quoted "Wrong Model" ++ ", "
     ++ quoted "Input" ++ ": 1.0, " ++ quoted "Output" ++ ": 1.0}]")%string.

(** The target model twice, with rates given as strings the first time. *)
Definition string_record : value :=
  VDict [("Model", VStr "Gemini 1.5 Pro"); ("Input", VStr "0.075");
         ("Output", VStr "0.30")].

Definition later_record : value :=
  VDict [("Model", VStr "Gemini 1.5 Pro"); ("Input", VInt 7); ("Output", VInt 9)].

Definition record_text (name input output : string) : string :=
  ("{" ++ quoted "Model" ++ ": " ++ name ++ ", "
     ++ quoted "Input" ++ ": " ++ input ++ ", "
     ++ quoted "Output" ++ ": " ++ output ++ "}")%string.

Definition two_prices_text : string :=
  ("[" ++ record_text (quoted "Wrong Model") "1.0" "1.0" ++ ", "
     ++ record_text (quoted "Gemini 1.5 Pro") (quoted "0.075") (quoted "0.30")
     ++ ", " ++ record_text (quoted "Gemini 1.5 Pro") "7" "9" ++ "]")%string.

Definition result_text (s a p i : string) : string :=
  ("{" ++ quoted "summary" ++ ": " ++ quoted s ++ ", "
     ++ quoted "actions" ++ ": [" ++ a ++ "], "
     ++ quoted "positives" ++ ": [" ++ p ++ "], "
     ++ quoted "improvements" ++ ": [" ++ i ++ "]}")%string.

Definition test_result : value :=
  VDict [("summary", VStr "Test summary"); ("actions", VList [VStr "Action 1"]);
         ("positives", VList [VStr "Positive 1"]);
         ("improvements", VList [VStr "Improvement 1"])].

Definition test_result_text : string :=
  result_text "Test summary" (quoted "Action 1") (quoted "Positive 1")
    (quoted "Improvement 1").

Definition second_result : value :=
  VDict [("summary", VStr "B"); ("actions", VList [VStr "Action 2"]);
         ("positives", VList []); ("improvements", VList [])].

Definition second_result_text : string :=
  result_text "B" (quoted "Action 2") "" "".

(** Only a summary and actions. *)
Definition partial_result : value :=
  VDict [("summary", VStr "Short"); ("actions", VList [VStr "Action 3"])].

Definition partial_result_text : string :=
  ("{" ++ quoted "summary" ++ ": " ++ quoted "Short" ++ ", "
     ++ quoted "actions" ++ ": [" ++ quoted "Action 3" ++ "]}")%string.

Fixpoint assoc {A : Type} (k : string) (table : list (string * A)) : option A :=
  match table with
  | [] => None
  | (k', v) :: rest => if String.eqb k' k then Some v else assoc k rest
  end.

Definition known_json : list (string * value) :=
  [(prices_text, VList [gemini_record]);
   (wrong_prices_text, VList [wrong_record]);
   (two_prices_text, VList [wrong_record; string_record; later_record]);
   (test_result_text, test_result);
   (second_result_text, second_result);
   (partial_result_text, partial_result)].

Definition known_floats : list (string * float) :=
  [("0.075", 0.075%float); ("0.30", 0.30%float)].

#[export] Instance runtime : Runtime :=
  {| json_loads := fun s => assoc s known_json;
     float_of_str := fun s => assoc s known_floats |}.

(** A service that answers with the next response of a list. *)
#[export] Instance replay : GenerativeModel (list response) :=
  {| generate_content := fun m _ =>
       match m with
       | [] => ([], Raise (ServiceError "no response left"))
       | r :: rest => (rest, Ok r)
       end |}.

#[export] Instance splitter : TextSplitter :=
  {| split_text := fun size overlap t =>
       match chunker size overlap t with
       | Some chunks => chunks
       | None => []
       end |}.

Definition test_usage : usage_metadata :=
  {| prompt_token_count := 100; candidates_token_count := 50 |}.

Definition good_response : response :=
  {| text := test_result_text; usage := Some test_usage |}.

Definition second_response : response :=
  {| text := second_result_text; usage := Some test_usage |}.

Definition partial_response : response :=
  {| text := partial_result_text; usage := None |}.

Definition invalid_response : response :=
  {| text := "Invalid JSON"; usage := Some test_usage |}.

Fixpoint replicate (n : nat) (c : ascii) : string :=
  match n with
  | O => EmptyString
  | S n' => String c (replicate n' c)
  end.

(** A transcript of 30001 characters: two chunks. *)
Definition long_transcript : string := replicate 30001 "x".

Definition disk : files :=
  <["test_prices.json" := prices_text]>
  (<["wrong_prices.json" := wrong_prices_text]>
  (<["two_prices.json" := two_prices_text]>
  (<["test_transcript.md" := "This is a test transcript."]>
  (<["long_transcript.md" := long_transcript]> ∅)))).

(** Paths: [resolve] makes a path absolute, [with_suffix] replaces what
    follows the last dot. *)
Fixpoint cut_last_dot (s : string) : option string :=
  match s with
  | EmptyString => None
  | String c rest =>
      match cut_last_dot rest with
      | Some stem => Some (String c stem)
      | None => if Ascii.eqb c "." then Some EmptyString else None
      end
  end.

#[export] Instance paths : PathLib :=
  {| resolve := fun p =>
       match p with
       | String "/" _ => p
       | _ => ("/work/" ++ p)%string
       end;
     with_suffix := fun p suffix =>
       match cut_last_dot p with
       | Some stem => (stem ++ suffix)%string
       | None => (p ++ suffix)%string
       end |}.

Definition csv_text : string := ("a,b" ++ newline ++ "1,2" ++ newline)%string.

Definition csv_json : string :=
  ("[" ++ newline ++ "    {" ++ newline
     ++ "        " ++ quoted "a" ++ ":1," ++ newline
     ++ "        " ++ quoted "b" ++ ":2" ++ newline
     ++ "    }" ++ newline ++ "]")%string.

(** A pandas that knows one table; a data frame is kept as its JSON text. *)
#[export] Instance pandas : Pandas :=
  {| DataFrame := string;
     read_csv := fun content =>
       if String.eqb content csv_text then Ok csv_json
       else Raise (ValueError "No columns to parse from file");
     to_json := fun df => df |}.

Definition csv_disk : files := <["/work/data.csv" := csv_text]> ∅.

(** Every path can be opened for writing. *)
#[export] Instance writable : WriteAccess :=
  {| open_write := fun _ => None |}.

Definition test_rates : price_rates :=
  {| input_rate := 0.075%float; output_rate := 0.30%float |}.

Definition analyzer (m : list response) : MeetingAnalyzer (list response) :=
  {| model := m; prices := test_rates |}.

End Sample.

(** Further data: a price table with a record that has no model name, a
    price file that is one object, an empty transcript, a splitter that
    gives no chunk for an empty text, a source that pandas rejects. *)

Module Scenario.

Definition bare_record : value :=
  VDict [("Input", VFloat 1); ("Output", VFloat 1)].

Definition bare_prices_text : string :=
  ("[{" ++ Sample.quoted "Input" ++ ": 1.0, " ++ Sample.quoted "Output"
     ++ ": 1.0}, "
     ++ Sample.record_text (Sample.quoted "Gemini 1.5 Pro") "0.075" "0.3"
     ++ "]")%string.

Definition plain_record : value :=
  VDict [("Model", VStr "Gemini 1.5 Pro"); ("Input", VFloat 0.075);
         ("Output", VFloat 0.30)].

Definition object_prices_text : string :=
  Sample.record_text (Sample.quoted "Gemini 1.5 Pro") "0.075" "0.3".

(** The target model with an input rate given as the integer [2^53 + 1]. *)
Definition big_record : value :=
  VDict [("Model", VStr "Gemini 1.5 Pro"); ("Input", VInt 9007199254740993);
         ("Output", VInt 1)].

Definition big_prices_text : string :=
  ("["
     ++ Sample.record_text (Sample.quoted "Gemini 1.5 Pro") "9007199254740993"
          "1"
     ++ "]")%string.

Definition known_json : list (string * value) :=
  ((bare_prices_text, VList [bare_record; plain_record])
   :: (object_prices_text, plain_record)
   :: (big_prices_text, VList [big_record])
   :: Sample.known_json)%list.

#[export] Instance runtime : Runtime :=
  {| json_loads := fun s => Sample.assoc s known_json;
     float_of_str := fun s => Sample.assoc s Sample.known_floats |}.

(** A response whose text is a JSON array. *)
Definition array_response : response :=
  {| text := Sample.prices_text; usage := Some Sample.test_usage |}.

(** No chunk for an empty text, the windows otherwise. *)
#[export] Instance skipping_splitter : TextSplitter :=
  {| split_text := fun size overlap t =>
       match t with
       | EmptyString => []
       | _ => split_text (TextSplitter := Sample.splitter) size overlap t
       end |}.

Definition disk : files :=
  <["big_prices.json" := big_prices_text]>
  (<["bare_prices.json" := bare_prices_text]>
  (<["object_prices.json" := object_prices_text]>
  (<["empty_transcript.md" := EmptyString]>
  (<[price_file_path := Sample.prices_text]>
  (<[transcript_file_path := "This is a test transcript."]> Sample.disk))))).

Definition csv_disk : files :=
  <["/work/bad.csv" := "not a table"]> Sample.csv_disk.

(** The directory [/gone] does not exist: no path below it can be opened
    for writing. *)
#[export] Instance no_directory : WriteAccess :=
  {| open_write := fun path =>
       if String.prefix "/gone/" path
       then Some (FileNotFoundError path) else None |}.

(** The handle is the list of responses the service will replay. *)
#[export] Instance provider : Provider (list response) :=
  {| connect := fun _ _ => [Sample.good_response] |}.

Definition known_amounts : list (float * string) :=
  [(0.0075%float, "0.0075"); (0.015%float, "0.0150"); (0.0225%float, "0.0225")].

Fixpoint amount (f : float) (table : list (float * string)) : string :=
  match table with
  | [] => "?"
  | (x, s) :: rest => if PrimFloat.eqb x f then s else amount f rest
  end.

#[export] Instance formatting : Formatting :=
  {| repr := fun _ => "<value>";
     format_4f := fun f => amount f known_amounts |}.

Definition env : gmap string string := <["GOOGLE_API_KEY" := "test_api_key"]> ∅.

End Scenario.

(** ** Integers as floats *)

Ltac stdlib_Z :=
  change IntDef.Z.sub with Z.sub in *;
  change IntDef.Z.add with Z.add in *;
  change IntDef.Z.max with Z.max in *;
  change IntDef.Z.leb with Z.leb in *;
  change IntDef.Z.eqb with Z.eqb in *.

Lemma digits2_pos_lower (p : positive) :
  2 ^ (Zpos (digits2_pos p) - 1) <= Zpos p.
Proof.
  induction p as [p IH | p IH |]; cbn [digits2_pos].
  - rewrite Pos2Z.inj_succ.
    replace (Z.succ (Zpos (digits2_pos p)) - 1)
      with (Z.succ (Zpos (digits2_pos p) - 1)) by lia.
    rewrite Z.pow_succ_r by lia. lia.
  - rewrite Pos2Z.inj_succ.
    replace (Z.succ (Zpos (digits2_pos p)) - 1)
      with (Z.succ (Zpos (digits2_pos p) - 1)) by lia.
    rewrite Z.pow_succ_r by lia. lia.
  - reflexivity.
Qed.

Lemma digits2_pos_small (p : positive) :
  Zpos p < 2 ^ 53 -> Zpos (digits2_pos p) <= 53.
Proof.
  intros Hp.
  destruct (Z_le_gt_dec (Zpos (digits2_pos p)) 53) as [Hle | Hgt]; [exact Hle|].
  pose proof (digits2_pos_lower p) as Hlow.
  assert (2 ^ 53 <= 2 ^ (Zpos (digits2_pos p) - 1))
    by (apply Z.pow_le_mono_r; lia).
  lia.
Qed.

Lemma iter_xO_value (p k : positive) :
  Zpos (Pos.iter xO p k) = Zpos p * 2 ^ Zpos k.
Proof.
  induction k as [|k IH] using Pos.peano_ind.
  - cbn [Pos.iter]. lia.
  - rewrite Pos.iter_succ, Pos2Z.inj_xO, IH, Pos2Z.inj_succ, Z.pow_succ_r by lia.
    lia.
Qed.

Lemma iter_xO_digits (p k : positive) :
  digits2_pos (Pos.iter xO p k) = (digits2_pos p + k)%positive.
Proof.
  induction k as [|k IH] using Pos.peano_ind.
  - cbn [Pos.iter digits2_pos]. lia.
  - rewrite Pos.iter_succ. cbn [digits2_pos]. rewrite IH. lia.
Qed.

(** Rounding a mantissa of 53 digits within the exponent range changes
    nothing. *)
Lemma binary_round_aux_canonical (s : bool) (m : positive) (e : Z) :
  Zpos (digits2_pos m) = 53 ->
  -1074 <= e <= 971 ->
  binary_round_aux prec emax s (Zpos m) e loc_Exact = S754_finite s m e.
Proof.
  intros Hdig He.
  assert (Hn : fexp prec emax (53 + e) - e = 0).
  { unfold fexp, emin, prec, emax. lia. }
  unfold binary_round_aux, shr_fexp.
  cbn [Zdigits2 shr_record_of_loc]. rewrite Hdig. stdlib_Z. rewrite Hn.
  cbn [shr shr_m loc_of_shr_record round_nearest_even shr_record_of_loc Zdigits2].
  rewrite Hdig, Hn. cbn [shr shr_m].
  unfold prec, emax.
  destruct (Z.leb_spec e (1024 - 53)) as [_|Hgt]; [reflexivity|lia].
Qed.

Lemma binary_round_small (p : positive) :
  Zpos p < 2 ^ 53 ->
  exists m e,
    (forall s, binary_round prec emax s p 0 = S754_finite s m e)
    /\ (forall s, valid_binary (S754_finite s m e) = true)
    /\ -52 <= e <= 0
    /\ Zpos m = Zpos p * 2 ^ (- e).
Proof.
  intros Hp. pose proof (digits2_pos_small p Hp) as Hd.
  assert (Hd1 : 1 <= Zpos (digits2_pos p)) by lia.
  assert (Hf : fexp prec emax (Zpos (digits2_pos p) + 0)
               = Zpos (digits2_pos p) - 53).
  { unfold fexp, emin, prec, emax. lia. }
  unfold binary_round, shl_align. stdlib_Z. rewrite Hf, Z.sub_0_r.
  assert (Hvalid : forall m e s, Zpos (digits2_pos m) = 53 -> -52 <= e <= 0 ->
                     valid_binary (S754_finite s m e) = true).
  { intros m e s Hdig He.
    unfold valid_binary, SpecFloat.valid_binary, bounded, canonical_mantissa.
    rewrite Hdig. unfold fexp, emin, prec, emax. stdlib_Z.
    apply andb_true_intro. split; [apply Z.eqb_eq | apply Z.leb_le]; lia. }
  destruct (Zpos (digits2_pos p) - 53) as [|k|k] eqn:Hk; [|lia|].
  - exists p, 0. repeat split; try lia.
    + intros s. now rewrite binary_round_aux_canonical by lia.
    + intros s. apply Hvalid; lia.
  - assert (Hdig : Zpos (digits2_pos (Pos.iter xO p k)) = 53).
    { rewrite iter_xO_digits. lia. }
    exists (Pos.iter xO p k), (Zneg k). repeat split; try lia.
    + intros s. now rewrite binary_round_aux_canonical by lia.
    + intros s. apply Hvalid; lia.
    + rewrite iter_xO_value. reflexivity.
Qed.

(** [float(z)] is exact for an integer below [2^53]. *)
Lemma float_of_int_exact (z : Z) :
  small z = true ->
  exists f q,
    float_of_int z = Ok f /\ exact_value f = Some q /\ (q == inject_Z z)%Q.
Proof.
  unfold small. intros Hz%Z.ltb_lt.
  destruct z as [|p|p].
  - exists 0%float, 0%Q. repeat split; reflexivity.
  - destruct (binary_round_small p) as (m & e & Hround & Hvalid & He & Hm);
      [lia|].
    exists (SF2Prim (S754_finite false m e)).
    unfold float_of_int, binary_normalize. rewrite Hround. cbn [is_infinite].
    unfold exact_value. rewrite (Prim2SF_SF2Prim _ (Hvalid false)).
    destruct e as [|k|k]; [| lia |].
    + exists (inject_Z (Zpos m * 2 ^ 0)). repeat split.
      rewrite Hm. unfold Qeq. simpl. lia.
    + exists (Zpos m # 2 ^ k)%Q. repeat split.
      change (- Z.neg k) with (Z.pos k) in Hm.
      unfold Qeq. cbn [Qnum Qden inject_Z]. rewrite Hm, Pos2Z.inj_pow. lia.
  - destruct (binary_round_small p) as (m & e & Hround & Hvalid & He & Hm);
      [lia|].
    exists (SF2Prim (S754_finite true m e)).
    unfold float_of_int, binary_normalize. rewrite Hround. cbn [is_infinite].
    unfold exact_value. rewrite (Prim2SF_SF2Prim _ (Hvalid true)).
    destruct e as [|k|k]; [| lia |].
    + exists (Qopp (inject_Z (Zpos m * 2 ^ 0))). repeat split.
      rewrite Hm. unfold Qeq. simpl. lia.
    + exists (Qopp (Zpos m # 2 ^ k))%Q. repeat split.
      change (- Z.neg k) with (Z.pos k) in Hm.
      unfold Qeq. cbn [Qnum Qden inject_Z Qopp]. rewrite Pos2Z.inj_pow.
      change (Z.neg p) with (- Z.pos p). lia.
Qed.

(** The two conversions of the model agree below [2^53]. *)
Lemma float_of_int_small (z : Z) :
  small z = true -> float_of_int z = Ok (float_of_small z).
Proof.
  unfold small. intros Hz%Z.ltb_lt.
  destruct z as [|p|p]; [reflexivity| |].
  - destruct (binary_round_small p) as (m & e & Hround & _); [lia|].
    unfold float_of_int, float_of_small. cbn [binary_normalize].
    rewrite Hround. cbn [is_infinite]. f_equal.
    rewrite <- (Hround false), <- (SF2Prim_Prim2SF (of_uint63 _)).
    rewrite of_uint63_spec, Uint63.of_Z_spec, Z.mod_small; [reflexivity|].
    change Uint63Axioms.wB with (2 ^ 63). lia.
  - destruct (binary_round_small p) as (m & e & Hround & _); [lia|].
    unfold float_of_int, float_of_small. cbn [binary_normalize].
    rewrite Hround. cbn [is_infinite]. f_equal.
    rewrite <- (SF2Prim_Prim2SF (- of_uint63 _)%float).
    rewrite opp_spec, of_uint63_spec, Uint63.of_Z_spec, Z.mod_small.
    + change (- Z.neg p) with (Z.pos p). cbn [binary_normalize].
      now rewrite Hround.
    + change Uint63Axioms.wB with (2 ^ 63). change (- Z.neg p) with (Z.pos p).
      lia.
Qed.

(** The float that the division takes for an integer below [2^53] is
    exactly that integer. *)
Lemma float_of_small_exact (z : Z) :
  small z = true ->
  exists q, exact_value (float_of_small z) = Some q /\ (q == inject_Z z)%Q.
Proof.
  intros Hz.
  destruct (float_of_int_exact z Hz) as (f & q & Hf & Hq & Heq).
  rewrite (float_of_int_small z Hz) in Hf. injection Hf as <-. now exists q.
Qed.

(** ** The price-table loader *)

Section Loader.

Context {RT : Runtime}.

Lemma py_float_numeric (v : value) (f : float) :
  numeric v f -> py_float v = Ok f.
Proof.
  intros Hn. destruct Hn as [f | z f Hz | s f Hs]; simpl.
  - reflexivity.
  - exact Hz.
  - now rewrite Hs.
Qed.

Lemma find_prices_other (r : value) (rest : list value) :
  other_model r -> find_prices (r :: rest) = find_prices rest.
Proof.
  intros (name & Hget & Hne). simpl. rewrite Hget. simpl.
  unfold target_model in Hne. now rewrite Hne.
Qed.

Lemma find_prices_skip (pre rest : list value) :
  Forall other_model pre -> find_prices (pre ++ rest) = find_prices rest.
Proof.
  induction 1 as [|r pre Hr _ IH]; [reflexivity|].
  rewrite <- app_comm_cons, find_prices_other by exact Hr. exact IH.
Qed.

Lemma find_prices_target (r : value) (rest : list value) :
  is_target r -> find_prices (r :: rest) = rates_of r.
Proof.
  intros (name & Hget & Heq). simpl. rewrite Hget. simpl.
  unfold target_model in Heq. now rewrite Heq.
Qed.

Lemma find_prices_found (r : value) (rest : list value) (p : price_rates) :
  find_prices (r :: rest) = Ok p -> is_target r \/ find_prices rest = Ok p.
Proof.
  simpl. destruct (getitem r "Model") as [name|e] eqn:Hget; simpl; [|discriminate].
  destruct (eq_str name "Gemini 1.5 Pro") eqn:Heq; intros Hp.
  - left. exists name. split; [exact Hget | exact Heq].
  - right. exact Hp.
Qed.

Lemma find_prices_ok_target (models : list value) (p : price_rates) :
  find_prices models = Ok p -> Exists is_target models.
Proof.
  induction models as [|r rest IH]; [discriminate|].
  intros Hp. destruct (find_prices_found _ _ _ Hp) as [Hr | Hrest].
  - now apply Exists_cons_hd.
  - apply Exists_cons_tl. now apply IH.
Qed.

Lemma load_prices_table (fs : files) (price_file content : string)
  (table : list value) :
  fs !! price_file = Some content ->
  json_loads content = Some (VList table) ->
  _load_prices fs price_file = find_prices table.
Proof.
  intros Hfile Hjson. unfold _load_prices, open_read, json_load.
  rewrite Hfile. simpl. rewrite Hjson. reflexivity.
Qed.

(** C3.  A price table in which every record has a model name and none is
    the target model: loading raises the [ValueError] whose message names
    the target model.  And whatever the entries of the table are, loading
    returns rates only if some record's model name is the target model. *)
Theorem load_prices_missing_model (fs : files) (price_file content : string)
  (table : list value) :
  fs !! price_file = Some content ->
  json_loads content = Some (VList table) ->
  (Forall other_model table ->
   _load_prices fs price_file
   = Raise (ValueError (target_model ++ " pricing not found in price file")))
  /\ (~ Exists is_target table ->
      forall p, _load_prices fs price_file <> Ok p).
Proof.
  intros Hfile Hjson.
  rewrite (load_prices_table _ _ _ _ Hfile Hjson). split.
  - intros Hall. rewrite <- (app_nil_r table).
    now rewrite find_prices_skip.
  - intros Hnone p Hp. apply Hnone. eapply find_prices_ok_target, Hp.
Qed.

Lemma numeric_same_number (v : value) (f : float) :
  numeric v f -> same_number v f.
Proof.
  intros [x | z x Hz | s x Hs]; simpl; [reflexivity | | exact Hs].
  split; [exact Hz|]. intros Hsmall.
  destruct (float_of_int_exact z Hsmall) as (f' & q & Hf' & Hq & Heq).
  rewrite Hz in Hf'. injection Hf' as <-. now exists q.
Qed.

Lemma rates_of_numeric (r i o : value) (fi fo : float) :
  getitem r "Input" = Ok i ->
  getitem r "Output" = Ok o ->
  numeric i fi ->
  numeric o fo ->
  rates_of r = Ok {| input_rate := fi; output_rate := fo |}.
Proof.
  intros Hi Ho Hfi Hfo. unfold rates_of. rewrite Hi. simpl.
  rewrite (py_float_numeric _ _ Hfi). simpl. rewrite Ho. simpl.
  now rewrite (py_float_numeric _ _ Hfo).
Qed.

(** C6.  A price table whose first record for the target model gives its
    input and output rates as numbers or numeric strings: loading returns
    the floats that [float()] makes of these two values and nothing else.
    They are the values themselves for a float (the same float), for a
    numeric string (the float it parses to) and for an integer below [2^53]
    (a float of exactly that value); a larger integer is loaded as the
    float that [float()] rounds it to. *)
Theorem load_prices_rates (fs : files) (price_file content : string)
  (pre post : list value) (r i o : value) (fi fo : float) :
  fs !! price_file = Some content ->
  json_loads content = Some (VList (pre ++ r :: post)) ->
  Forall other_model pre ->
  is_target r ->
  getitem r "Input" = Ok i ->
  getitem r "Output" = Ok o ->
  numeric i fi ->
  numeric o fo ->
  _load_prices fs price_file = Ok {| input_rate := fi; output_rate := fo |}
  /\ same_number i fi
  /\ same_number o fo.
Proof.
  intros Hfile Hjson Hpre Hr Hi Ho Hfi Hfo.
  rewrite (load_prices_table _ _ _ _ Hfile Hjson).
  rewrite find_prices_skip, find_prices_target by assumption.
  rewrite (rates_of_numeric _ _ _ _ _ Hi Ho Hfi Hfo).
  repeat split; now apply numeric_same_number.
Qed.

(** C9.  With several records for the target model, loading returns what
    the first of them gives; the records after it play no part: any other
    records in their place give the same.  What the first of them gives is
    read from its own [Input] and [Output]: when these are numbers or
    numeric strings, the rates are the floats that [float()] makes of them;
    when one of them is missing, or is not a number, loading raises the
    exception of reading it, whatever the later records hold. *)
Theorem load_prices_first_match (fs : files) (price_file content : string)
  (pre post : list value) (r : value) :
  fs !! price_file = Some content ->
  json_loads content = Some (VList (pre ++ r :: post)) ->
  Forall other_model pre ->
  is_target r ->
  (forall post', find_prices (pre ++ r :: post') = _load_prices fs price_file)
  /\ (forall i o fi fo,
        getitem r "Input" = Ok i ->
        getitem r "Output" = Ok o ->
        numeric i fi ->
        numeric o fo ->
        _load_prices fs price_file
        = Ok {| input_rate := fi; output_rate := fo |})
  /\ (forall e,
        getitem r "Input" = Raise e ->
        _load_prices fs price_file = Raise e)
  /\ (forall i e,
        getitem r "Input" = Ok i ->
        py_float i = Raise e ->
        _load_prices fs price_file = Raise e)
  /\ (forall i fi e,
        getitem r "Input" = Ok i ->
        numeric i fi ->
        getitem r "Output" = Raise e ->
        _load_prices fs price_file = Raise e)
  /\ _load_prices fs price_file = rates_of r.
Proof.
  intros Hfile Hjson Hpre Hr.
  rewrite (load_prices_table _ _ _ _ Hfile Hjson).
  rewrite find_prices_skip, find_prices_target by assumption.
  repeat split.
  - intros post'. now rewrite find_prices_skip, find_prices_target.
  - intros i o fi fo Hi Ho Hfi Hfo. now apply (rates_of_numeric r i o).
  - intros e Hi. unfold rates_of. now rewrite Hi.
  - intros i e Hi He. unfold rates_of. rewrite Hi. simpl. now rewrite He.
  - intros i fi e Hi Hfi Ho. unfold rates_of. rewrite Hi. simpl.
    rewrite (py_float_numeric _ _ Hfi). simpl. now rewrite Ho.
Qed.

End Loader.

Lemma load_prices_missing_model_witness :
  _load_prices (RT := Sample.runtime) Sample.disk "wrong_prices.json"
  = Raise (ValueError "Gemini 1.5 Pro pricing not found in price file").
Proof.
  apply (proj1 (load_prices_missing_model (RT := Sample.runtime) Sample.disk "wrong_prices.json"
                  Sample.wrong_prices_text [Sample.wrong_record]
                  eq_refl eq_refl)).
  repeat constructor. exists (VStr "Wrong Model"). split; reflexivity.
Defined.

Lemma load_prices_rates_witness :
  _load_prices (RT := Sample.runtime) Sample.disk "two_prices.json"
  = Ok {| input_rate := 0.075%float; output_rate := 0.30%float |}
  /\ same_number (RT := Sample.runtime) (VStr "0.075") 0.075%float
  /\ same_number (RT := Sample.runtime) (VStr "0.30") 0.30%float.
Proof.
  apply (load_prices_rates (RT := Sample.runtime) Sample.disk "two_prices.json"
           Sample.two_prices_text [Sample.wrong_record] [Sample.later_record]
           Sample.string_record (VStr "0.075") (VStr "0.30")).
  - reflexivity.
  - reflexivity.
  - repeat constructor. exists (VStr "Wrong Model"). split; reflexivity.
  - exists (VStr "Gemini 1.5 Pro"). split; reflexivity.
  - reflexivity.
  - reflexivity.
  - constructor. reflexivity.
  - constructor. reflexivity.
Defined.

Lemma load_prices_first_match_witness :
  _load_prices (RT := Sample.runtime) Sample.disk "two_prices.json"
  = Ok {| input_rate := 0.075%float; output_rate := 0.30%float |}
  /\ forall post',
      find_prices (RT := Sample.runtime)
        ([Sample.wrong_record] ++ Sample.string_record :: post')
      = Ok {| input_rate := 0.075%float; output_rate := 0.30%float |}.
Proof.
  destruct (load_prices_first_match (RT := Sample.runtime) Sample.disk
              "two_prices.json" Sample.two_prices_text [Sample.wrong_record]
              [Sample.later_record] Sample.string_record)
    as (Hany & Hrates & _).
  - reflexivity.
  - reflexivity.
  - repeat constructor. exists (VStr "Wrong Model"). split; reflexivity.
  - exists (VStr "Gemini 1.5 Pro"). split; reflexivity.
  - assert (Hload : _load_prices (RT := Sample.runtime) Sample.disk
                      "two_prices.json"
                    = Ok {| input_rate := 0.075%float;
                            output_rate := 0.30%float |}).
    { apply (Hrates (VStr "0.075") (VStr "0.30")).
      - reflexivity.
      - reflexivity.
      - constructor. reflexivity.
      - constructor. reflexivity. }
    split; [exact Hload|].
    intros post'. rewrite Hany. exact Hload.
Defined.

(** The integer [2^53 + 1] as a rate: what is loaded is [2^53]. *)
Example load_prices_big_integer :
  _load_prices (RT := Scenario.runtime) Scenario.disk "big_prices.json"
  = Ok {| input_rate := 9007199254740992%float; output_rate := 1%float |}.
Proof. vm_compute. reflexivity. Qed.

(** C6 as worded fails.  A price table whose one record is for the target
    model, with the integers [2^53 + 1] and [1] as its rates: the table
    loads, and the input rate is [2^53], not the record's value. *)
Lemma load_prices_exact_rates_counterexample :
  Scenario.disk !! "big_prices.json" = Some Scenario.big_prices_text
  /\ json_loads (Runtime := Scenario.runtime) Scenario.big_prices_text
     = Some (VList [Scenario.big_record])
  /\ is_target Scenario.big_record
  /\ getitem Scenario.big_record "Input" = Ok (VInt (2 ^ 53 + 1))
  /\ getitem Scenario.big_record "Output" = Ok (VInt 1)
  /\ ~ loads_exact_rates (RT := Scenario.runtime) Scenario.disk
         "big_prices.json" Scenario.big_record.
Proof.
  repeat split; try reflexivity.
  - exists (VStr "Gemini 1.5 Pro"). split; reflexivity.
  - intros (p & i & o & Hload & Hi & _ & Hin & _).
    vm_compute in Hload. injection Hload as <-.
    vm_compute in Hi. injection Hi as <-.
    destruct Hin as (q & Hq & Heq).
    vm_compute in Hq. injection Hq as <-.
    vm_compute in Heq. discriminate Heq.
Qed.

(** ** The loop over the chunks *)

Section Loop.

Context {RT : Runtime} {M : Type} {GM : GenerativeModel M}.

Lemma token_usage_eq (a b : token_usage) :
  input_tokens a = input_tokens b ->
  output_tokens a = output_tokens b ->
  a = b.
Proof. destruct a, b; simpl; intros -> ->; reflexivity. Qed.

Lemma count_tokens_add (r : response) (a b : token_usage) :
  count_tokens r (add_tokens a b) = add_tokens a (count_tokens r b).
Proof.
  unfold count_tokens, add_tokens.
  destruct (usage r) as [u|]; [|reflexivity].
  apply token_usage_eq; simpl; lia.
Qed.

Lemma add_tokens_zero (a : token_usage) :
  add_tokens a {| input_tokens := 0; output_tokens := 0 |} = a.
Proof. apply token_usage_eq; simpl; lia. Qed.

Lemma process_responses_results (rs : list response) (st : run_state) :
  all_results (process_responses st rs) = (all_results st ++ parsed_results rs)%list.
Proof.
  unfold process_responses. revert st.
  induction rs as [|r rs IH]; intros st; simpl.
  - now rewrite app_nil_r.
  - rewrite IH. unfold process_response.
    destruct (json_loads (text r)); simpl; [|reflexivity].
    now rewrite <- app_assoc.
Qed.

Lemma process_responses_tokens (rs : list response) (st : run_state) :
  total_tokens (process_responses st rs)
  = add_tokens (total_tokens st) (used_tokens rs).
Proof.
  unfold process_responses. revert st.
  induction rs as [|r rs IH]; intros st; simpl.
  - now rewrite add_tokens_zero.
  - rewrite IH, <- count_tokens_add.
    unfold process_response. destruct (json_loads (text r)); simpl.
    all: unfold count_tokens, add_tokens; destruct (usage r); simpl.
    all: apply token_usage_eq; simpl; lia.
Qed.

Lemma process_chunks_answers (m m' : M) (chunks : list string)
  (rs : list response) (st : run_state) :
  answers m chunks rs m' ->
  process_chunks m chunks st = (m', process_responses st rs, None).
Proof.
  intros Hans. revert st.
  induction Hans as [m | m m1 m' chunk r chunks rs Hgen _ IH]; intros st.
  - reflexivity.
  - simpl. rewrite Hgen. apply IH.
Qed.

Lemma parsed_results_app (rs1 rs2 : list response) :
  parsed_results (rs1 ++ rs2) = (parsed_results rs1 ++ parsed_results rs2)%list.
Proof.
  induction rs1 as [|r rs1 IH]; simpl; [reflexivity|].
  destruct (json_loads (text r)); simpl; now rewrite IH.
Qed.

Lemma used_tokens_app (rs1 rs2 : list response) :
  used_tokens (rs1 ++ rs2) = add_tokens (used_tokens rs1) (used_tokens rs2).
Proof.
  induction rs1 as [|r rs1 IH]; simpl.
  - apply token_usage_eq; simpl; lia.
  - rewrite IH. unfold count_tokens, add_tokens.
    destruct (usage r); apply token_usage_eq; simpl; lia.
Qed.

End Loop.

Section Analyze.

Context {RT : Runtime} {TS : TextSplitter} {M : Type} {GM : GenerativeModel M}.

(** A run in which the service answers every chunk ends in the state that
    the responses give, and returns the merge and the costs of that
    state. *)
Lemma analyze_meeting_answers (self : MeetingAnalyzer M) (fs : files)
  (transcript_file transcript : string) (rs : list response) (m' : M) :
  fs !! transcript_file = Some transcript ->
  answers (model self) (split_text chunk_size chunk_overlap transcript) rs m' ->
  analyze_meeting self fs transcript_file
  = (m', stdout (process_responses initial_state rs),
     finish (process_responses initial_state rs) (prices self)).
Proof.
  intros Hfile Hans. unfold analyze_meeting, open_read. rewrite Hfile.
  now rewrite (process_chunks_answers _ _ _ _ _ Hans).
Qed.

(** What such a run returns: the merge of the results that parsed and the
    costs of the token counts that were reported. *)
Lemma analyze_meeting_returns (self : MeetingAnalyzer M) (fs : files)
  (transcript_file transcript : string) (rs : list response) (m' : M) :
  fs !! transcript_file = Some transcript ->
  answers (model self) (split_text chunk_size chunk_overlap transcript) rs m' ->
  snd (analyze_meeting self fs transcript_file)
  = (combined <- combine_results (parsed_results rs) ;;
     costs <- calculate_costs (used_tokens rs) (prices self) ;;
     Ok (combined, costs)).
Proof.
  intros Hfile Hans.
  rewrite (analyze_meeting_answers _ _ _ _ _ _ Hfile Hans). simpl.
  unfold finish.
  rewrite process_responses_results, process_responses_tokens. simpl.
  replace (add_tokens {| input_tokens := 0; output_tokens := 0 |} (used_tokens rs))
    with (used_tokens rs); [reflexivity|].
  apply token_usage_eq; simpl; lia.
Qed.

End Analyze.

(** ** The merge *)

Lemma holds_holds_or_lacks (r : value) (a : analysis) :
  holds r a -> holds_or_lacks r a.
Proof.
  intros (items & -> & Hs & Ha & Hp & Hi).
  exists items. repeat split; left; assumption.
Qed.

Lemma get_text_field (items : list (string * value)) (k s : string) :
  text_field items k s -> get (VDict items) k (VStr "") = Ok (VStr s).
Proof.
  intros [Hk | [Hk ->]]; simpl; now rewrite Hk.
Qed.

Lemma get_list_field (items : list (string * value)) (k : string)
  (l : list value) :
  list_field items k l ->
  (v <- get (VDict items) k (VList []) ;; iter v) = Ok l.
Proof.
  intros [Hk | [Hk ->]]; simpl; now rewrite Hk.
Qed.

Lemma strings_of_strs (ss : list string) : strings_of (map VStr ss) = Ok ss.
Proof.
  induction ss as [|s ss IH]; simpl; [reflexivity|]. now rewrite IH.
Qed.

Lemma summaries_parts (rs : list value) (parts : list analysis) :
  Forall2 holds_or_lacks rs parts ->
  summaries rs = Ok (map VStr (map a_summary parts)).
Proof.
  induction 1 as [|r a rs parts (items & -> & Hs & _) _ IH]; [reflexivity|].
  cbn [summaries]. rewrite (get_text_field _ _ _ Hs). simpl.
  now rewrite IH.
Qed.

Lemma gather_parts (field : string) (proj : analysis -> list value)
  (rs : list value) (parts : list analysis) :
  Forall2 (fun r a => exists items,
             r = VDict items /\ list_field items field (proj a)) rs parts ->
  gather field rs = Ok (concat (map proj parts)).
Proof.
  induction 1 as [|r a rs parts (items & -> & Hl) _ IH]; [reflexivity|].
  cbn [gather]. pose proof (get_list_field _ _ _ Hl) as Hget.
  destruct (get (VDict items) field (VList [])) as [v|e]; simpl in *;
    [|discriminate].
  rewrite Hget. simpl. now rewrite IH.
Qed.

Lemma combine_results_parts (rs : list value) (parts : list analysis) :
  Forall2 holds_or_lacks rs parts -> combine_results rs = Ok (merge parts).
Proof.
  intros Hall. unfold combine_results, join.
  rewrite (summaries_parts _ _ Hall). simpl. rewrite strings_of_strs. simpl.
  rewrite (gather_parts "actions" a_actions rs parts),
    (gather_parts "positives" a_positives rs parts),
    (gather_parts "improvements" a_improvements rs parts).
  - reflexivity.
  - eapply Forall2_impl; [exact Hall|].
    intros r a (items & -> & _ & _ & _ & Hi). eauto.
  - eapply Forall2_impl; [exact Hall|].
    intros r a (items & -> & _ & _ & Hp & _). eauto.
  - eapply Forall2_impl; [exact Hall|].
    intros r a (items & -> & _ & Ha & _ & _). eauto.
Qed.

(** C4.  Results that all hold the four fields merge into the summaries
    joined by newlines and the three list fields concatenated, in chunk
    order; a merged list has as many items as the chunks' lists together. *)
Theorem combine_results_all_fields (rs : list value) (parts : list analysis) :
  Forall2 holds rs parts ->
  exists c,
    combine_results rs = Ok c
    /\ summary c = String.concat newline (map a_summary parts)
    /\ actions c = concat (map a_actions parts)
    /\ positives c = concat (map a_positives parts)
    /\ improvements c = concat (map a_improvements parts)
    /\ length (actions c) = list_sum (map (fun a => length (a_actions a)) parts)
    /\ length (positives c)
       = list_sum (map (fun a => length (a_positives a)) parts)
    /\ length (improvements c)
       = list_sum (map (fun a => length (a_improvements a)) parts).
Proof.
  intros Hall. exists (merge parts). split.
  - apply (combine_results_parts rs parts).
    eapply Forall2_impl; [exact Hall|]. apply holds_holds_or_lacks.
  - simpl. repeat split; rewrite length_concat, map_map; reflexivity.
Qed.

(** C10.  Results that are objects lacking some of the four fields merge
    without an error: a missing summary counts as the empty string, a
    missing list as no items, and the fields that are there are merged as
    usual. *)
Theorem combine_results_missing_fields (rs : list value)
  (parts : list analysis) :
  Forall2 holds_or_lacks rs parts ->
  exists c,
    combine_results rs = Ok c
    /\ summary c = String.concat newline (map a_summary parts)
    /\ actions c = concat (map a_actions parts)
    /\ positives c = concat (map a_positives parts)
    /\ improvements c = concat (map a_improvements parts).
Proof.
  intros Hall. exists (merge parts). split.
  - now apply combine_results_parts.
  - simpl. repeat split; reflexivity.
Qed.

Lemma combine_results_all_fields_witness :
  exists c,
    combine_results [Sample.test_result; Sample.second_result] = Ok c
    /\ summary c = "Test summary" ++ newline ++ "B"
    /\ actions c = [VStr "Action 1"; VStr "Action 2"]
    /\ positives c = [VStr "Positive 1"]
    /\ improvements c = [VStr "Improvement 1"]
    /\ length (actions c) = 2%nat
    /\ length (positives c) = 1%nat
    /\ length (improvements c) = 1%nat.
Proof.
  apply (combine_results_all_fields
           [Sample.test_result; Sample.second_result]
           [{| a_summary := "Test summary"; a_actions := [VStr "Action 1"];
               a_positives := [VStr "Positive 1"];
               a_improvements := [VStr "Improvement 1"] |};
            {| a_summary := "B"; a_actions := [VStr "Action 2"];
               a_positives := []; a_improvements := [] |}]).
  repeat constructor; eexists; repeat split; reflexivity.
Defined.

Lemma combine_results_missing_fields_witness :
  exists c,
    combine_results [Sample.partial_result; Sample.test_result] = Ok c
    /\ summary c = "Short" ++ newline ++ "Test summary"
    /\ actions c = [VStr "Action 3"; VStr "Action 1"]
    /\ positives c = [VStr "Positive 1"]
    /\ improvements c = [VStr "Improvement 1"].
Proof.
  apply (combine_results_missing_fields
           [Sample.partial_result; Sample.test_result]
           [{| a_summary := "Short"; a_actions := [VStr "Action 3"];
               a_positives := []; a_improvements := [] |};
            {| a_summary := "Test summary"; a_actions := [VStr "Action 1"];
               a_positives := [VStr "Positive 1"];
               a_improvements := [VStr "Improvement 1"] |}]).
  constructor; [|constructor; [|constructor]].
  - eexists. split; [reflexivity|]. unfold text_field, list_field. simpl.
    repeat split; auto.
  - eexists. split; [reflexivity|]. unfold text_field, list_field. simpl.
    repeat split; auto.
Defined.

(** A result without a summary leaves an empty line in the merged one. *)
Example missing_summary_keeps_separator :
  combine_results [VDict [("actions", VList [VStr "Action 4"])];
                   Sample.test_result]
  = Ok {| summary := newline ++ "Test summary";
          actions := [VStr "Action 4"; VStr "Action 1"];
          positives := [VStr "Positive 1"];
          improvements := [VStr "Improvement 1"] |}.
Proof. reflexivity. Qed.

(** ** The cost estimate *)

Lemma truediv_small (a : Z) :
  small a = true ->
  truediv a 1000 = Ok (PrimFloat.div (float_of_small a) 1000%float).
Proof.
  intros Ha. unfold truediv. rewrite Ha. reflexivity.
Qed.

Lemma cost_of_ok (tokens : Z) (rate x : float) :
  cost_of tokens rate = Ok x ->
  exists q, truediv tokens 1000 = Ok q /\ x = PrimFloat.mul q rate.
Proof.
  unfold cost_of. destruct (truediv tokens 1000) as [q|e]; simpl; [|discriminate].
  intros [= <-]. now exists q.
Qed.

(** C2.  The costs are [(tokens / 1000) * rate] for the input and for the
    output, and their sum: for token counts below [2^53], where the
    division is the division of doubles; for all token counts, whenever the
    costs are computed at all; and for 100 and 50 tokens at the rates 0.075
    and 0.30 they are the doubles written 0.0075, 0.015 and 0.0225, which
    are within [10^-15] of these numbers. *)
Theorem calculate_costs_formula (t : token_usage) (p : price_rates) :
  (small (input_tokens t) = true ->
   small (output_tokens t) = true ->
   let ic := PrimFloat.mul
               (PrimFloat.div (float_of_small (input_tokens t)) 1000%float)
               (input_rate p) in
   let oc := PrimFloat.mul
               (PrimFloat.div (float_of_small (output_tokens t)) 1000%float)
               (output_rate p) in
   calculate_costs t p
   = Ok {| input_cost := ic; output_cost := oc;
           total_cost := PrimFloat.add ic oc |})
  /\ (forall c, calculate_costs t p = Ok c ->
      exists qi qo,
        truediv (input_tokens t) 1000 = Ok qi
        /\ truediv (output_tokens t) 1000 = Ok qo
        /\ input_cost c = PrimFloat.mul qi (input_rate p)
        /\ output_cost c = PrimFloat.mul qo (output_rate p)
        /\ total_cost c = PrimFloat.add (input_cost c) (output_cost c))
  /\ (calculate_costs {| input_tokens := 100; output_tokens := 50 |}
        {| input_rate := 0.075%float; output_rate := 0.30%float |}
      = Ok {| input_cost := 0.0075%float; output_cost := 0.015%float;
              total_cost := 0.0225%float |}
      /\ within (1 # 10 ^ 15) 0.0075%float (75 # 10000)
      /\ within (1 # 10 ^ 15) 0.015%float (15 # 1000)
      /\ within (1 # 10 ^ 15) 0.0225%float (225 # 10000)).
Proof.
  split; [|split].
  - intros Hi Ho. unfold calculate_costs, cost_of.
    rewrite (truediv_small _ Hi), (truediv_small _ Ho). reflexivity.
  - intros c. unfold calculate_costs.
    destruct (cost_of (input_tokens t) (input_rate p)) as [ic|e] eqn:Hic;
      simpl; [|discriminate].
    destruct (cost_of (output_tokens t) (output_rate p)) as [oc|e] eqn:Hoc;
      simpl; [|discriminate].
    intros [= <-]. simpl.
    destruct (cost_of_ok _ _ _ Hic) as (qi & Hqi & ->).
    destruct (cost_of_ok _ _ _ Hoc) as (qo & Hqo & ->).
    exists qi, qo. repeat split; assumption.
  - split; [vm_compute; reflexivity|].
    unfold within. repeat split; vm_compute; intros Hgt; discriminate Hgt.
Qed.

Lemma calculate_costs_formula_witness :
  calculate_costs {| input_tokens := 100; output_tokens := 50 |} Sample.test_rates
  = Ok {| input_cost := 0.0075%float; output_cost := 0.015%float;
          total_cost := 0.0225%float |}.
Proof.
  apply (proj1 (calculate_costs_formula
                  {| input_tokens := 100; output_tokens := 50 |}
                  Sample.test_rates)); reflexivity.
Defined.

(** ** Responses that do not parse, and responses without usage metadata *)

Section Responses.

Context {RT : Runtime} {TS : TextSplitter} {M : Type} {GM : GenerativeModel M}.

(** C1, as the code has it.  A chunk whose response does not parse is left
    out of the merge: the run goes on, and returns the merge of the parsed
    results of the other chunks, in chunk order, with the costs of all the
    reported token counts, the ones of that chunk included. *)
Theorem unparseable_chunk_left_out (self : MeetingAnalyzer M) (fs : files)
  (transcript_file transcript : string) (rs1 rs2 : list response)
  (bad : response) (m' : M) :
  fs !! transcript_file = Some transcript ->
  answers (model self) (split_text chunk_size chunk_overlap transcript)
    (rs1 ++ bad :: rs2) m' ->
  json_loads (text bad) = None ->
  snd (analyze_meeting self fs transcript_file)
  = (combined <- combine_results (parsed_results (rs1 ++ rs2)) ;;
     costs <- calculate_costs (count_tokens bad (used_tokens (rs1 ++ rs2)))
                (prices self) ;;
     Ok (combined, costs)).
Proof.
  intros Hfile Hans Hbad.
  rewrite (analyze_meeting_returns _ _ _ _ _ _ Hfile Hans).
  rewrite !parsed_results_app, !used_tokens_app. simpl. rewrite Hbad.
  now rewrite count_tokens_add.
Qed.


End Responses.

Lemma long_transcript_chunks :
  split_text (TextSplitter := Sample.splitter) chunk_size chunk_overlap
    Sample.long_transcript
  = [Sample.replicate 30000 "x"; Sample.replicate 1001 "x"].
Proof. compute_done. Qed.

Lemma long_transcript_answers (r1 r2 : response) :
  answers (GM := Sample.replay) [r1; r2]
    (split_text (TextSplitter := Sample.splitter) chunk_size chunk_overlap
       Sample.long_transcript)
    [r1; r2] [].
Proof.
  rewrite long_transcript_chunks.
  eapply answers_cons; [reflexivity|].
  eapply answers_cons; [reflexivity|].
  apply answers_nil.
Qed.

(** With the empty result standing in for the response that does not
    parse, the merged summary starts with a newline. *)
Example stand_in_summary :
  combine_results
    (map (stand_in (RT := Sample.runtime))
       [Sample.invalid_response; Sample.second_response])
  = Ok {| summary := newline ++ "B"; actions := [VStr "Action 2"];
          positives := []; improvements := [] |}.
Proof. reflexivity. Qed.

(** C1 as worded fails.  A transcript of two chunks, the first answered
    with text that is not JSON, the second with a result whose summary is
    "B": the run returns the summary "B", not the merge with the
    stand-in. *)
Lemma unparseable_chunk_stand_in_counterexample :
  answers (GM := Sample.replay)
    [Sample.invalid_response; Sample.second_response]
    (split_text (TextSplitter := Sample.splitter) chunk_size chunk_overlap
       Sample.long_transcript)
    [Sample.invalid_response; Sample.second_response] []
  /\ ~ merges_with_stand_ins (RT := Sample.runtime) (TS := Sample.splitter)
         (GM := Sample.replay)
         (Sample.analyzer [Sample.invalid_response; Sample.second_response])
         Sample.disk "long_transcript.md"
         [Sample.invalid_response; Sample.second_response].
Proof.
  split; [apply long_transcript_answers|].
  intros (c & costs & Hrun & Hstand).
  vm_compute in Hrun. vm_compute in Hstand.
  injection Hrun as <- _. discriminate Hstand.
Qed.

Lemma unparseable_chunk_left_out_witness :
  snd (analyze_meeting (RT := Sample.runtime) (TS := Sample.splitter)
         (GM := Sample.replay)
         (Sample.analyzer [Sample.invalid_response; Sample.second_response])
         Sample.disk "long_transcript.md")
  = Ok ({| summary := "B"; actions := [VStr "Action 2"]; positives := [];
           improvements := [] |},
        {| input_cost := 0.015%float; output_cost := 0.03%float;
           total_cost := 0.045%float |}).
Proof.
  apply (unparseable_chunk_left_out (RT := Sample.runtime)
           (TS := Sample.splitter) (GM := Sample.replay)
           (Sample.analyzer [Sample.invalid_response; Sample.second_response])
           Sample.disk "long_transcript.md" Sample.long_transcript
           [] [Sample.second_response] Sample.invalid_response []).
  - reflexivity.
  - apply long_transcript_answers.
  - reflexivity.
Defined.


(** ** The window chunker *)

Lemma windows_short (size k : nat) (t : string) :
  (String.length t <= size)%nat -> windows size k t = [t].
Proof.
  intros Hlen. rewrite windows_equation_1.
  destruct (le_lt_dec (String.length t) size) as [Hle | Hgt]; [reflexivity | lia].
Qed.

Lemma windows_long (size k : nat) (t : string) :
  (size < String.length t)%nat ->
  windows size k t
  = String.substring 0 size t :: windows size k (drop_chars (S k) t).
Proof.
  intros Hlen. rewrite windows_equation_1.
  destruct (le_lt_dec (String.length t) size) as [Hle | Hgt]; [lia | reflexivity].
Qed.

(** C5.  A transcript that is not longer than the maximum chunk length
    gives one chunk, the transcript itself. *)
Theorem chunker_short_transcript (size overlap : nat) (t : string) :
  (overlap < size)%nat ->
  (String.length t <= size)%nat ->
  chunker size overlap t = Some [t].
Proof.
  intros Hov Hlen. unfold chunker.
  destruct (Nat.ltb_spec overlap size) as [_ | Hge]; [|lia].
  now rewrite windows_short.
Qed.

Lemma chunker_short_transcript_witness :
  chunker chunk_size chunk_overlap "This is a test transcript."
  = Some ["This is a test transcript."].
Proof.
  apply (chunker_short_transcript chunk_size chunk_overlap
           "This is a test transcript.").
  - apply Nat.ltb_lt. vm_compute. reflexivity.
  - apply Nat.leb_le. vm_compute. reflexivity.
Defined.

Lemma substring_length_le (n : nat) (s : string) :
  (String.length (String.substring 0 n s) <= n)%nat.
Proof.
  revert s. induction n as [|n IH]; intros [|c s]; simpl; try lia.
  specialize (IH s). lia.
Qed.

(** No chunk of the window chunker is longer than the maximum length. *)
Lemma windows_bounded (size k : nat) (t : string) :
  Forall (fun chunk => (String.length chunk <= size)%nat) (windows size k t).
Proof.
  funelim (windows size k t).
  - now constructor.
  - constructor; [apply substring_length_le | assumption].
Qed.

(** Windows of five characters that advance by three. *)
Example windows_overlap :
  chunker 5 2 "abcdefghijklmnop"
  = Some ["abcde"; "defgh"; "ghijk"; "jklmn"; "mnop"].
Proof. reflexivity. Qed.

(** ** The converter *)

(** C7.  When the source path does not exist the converter raises the
    not-found error with nothing read, parsed, written or printed: the file
    system is as it was. *)
Theorem csv2json_missing_source {PL : PathLib} {PD : Pandas}
  {DK : WriteAccess} (fs : files) (source : string) (output : option string) :
  fs !! resolve source = None ->
  csv2json fs source output
  = (fs, [],
     Raise (FileNotFoundError ("Source file not found: " ++ resolve source))).
Proof.
  intros Hmissing. unfold csv2json. now rewrite Hmissing.
Qed.

Lemma csv2json_missing_source_witness :
  csv2json (PL := Sample.paths) (PD := Sample.pandas) (DK := Sample.writable)
    Sample.csv_disk "missing.csv" (Some "out.json")
  = (Sample.csv_disk, [],
     Raise (FileNotFoundError "Source file not found: /work/missing.csv")).
Proof.
  apply (csv2json_missing_source (PL := Sample.paths) (PD := Sample.pandas)
           (DK := Sample.writable) Sample.csv_disk "missing.csv"
           (Some "out.json")).
  reflexivity.
Defined.

(** The converter on a source that exists. *)
Example csv2json_converts :
  csv2json (PL := Sample.paths) (PD := Sample.pandas) (DK := Sample.writable)
    Sample.csv_disk "data.csv" None
  = (<["/work/data.json" := Sample.csv_json]> Sample.csv_disk,
     [ReadCsv "/work/data.csv";
      WriteFile "/work/data.json" Sample.csv_json;
      Print "JSON data has been written to /work/data.json"],
     Ok tt).
Proof. reflexivity. Qed.

(** ** The scenarios of the test suite *)

Example test_load_prices :
  _load_prices (RT := Sample.runtime) Sample.disk "test_prices.json"
  = Ok {| input_rate := 0.075%float; output_rate := 0.30%float |}.
Proof. reflexivity. Qed.

Example test_gemini_price_not_found :
  MeetingAnalyzer_init (RT := Sample.runtime) ([] : list response) Sample.disk
    "wrong_prices.json"
  = Raise (ValueError "Gemini 1.5 Pro pricing not found in price file").
Proof. reflexivity. Qed.

Example test_price_file_not_found :
  _load_prices (RT := Sample.runtime) Sample.disk "nonexistent_file.json"
  = Raise (FileNotFoundError "nonexistent_file.json").
Proof. reflexivity. Qed.

Example test_analyze_meeting_token_counting :
  analyze_meeting (RT := Sample.runtime) (TS := Sample.splitter)
    (GM := Sample.replay) (Sample.analyzer [Sample.good_response])
    Sample.disk "test_transcript.md"
  = ([], [],
     Ok ({| summary := "Test summary"; actions := [VStr "Action 1"];
            positives := [VStr "Positive 1"];
            improvements := [VStr "Improvement 1"] |},
         {| input_cost := 0.0075%float; output_cost := 0.015%float;
            total_cost := 0.0225%float |})).
Proof. vm_compute. reflexivity. Qed.

Example test_invalid_json_response :
  analyze_meeting (RT := Sample.runtime) (TS := Sample.splitter)
    (GM := Sample.replay) (Sample.analyzer [Sample.invalid_response])
    Sample.disk "test_transcript.md"
  = ([], ["Warning: Could not parse LLM output as JSON: Invalid JSON..."],
     Ok ({| summary := ""; actions := []; positives := [];
            improvements := [] |},
         {| input_cost := 0.0075%float; output_cost := 0.015%float;
            total_cost := 0.0225%float |})).
Proof. vm_compute. reflexivity. Qed.

(** A service that fails ends the run with its exception. *)
Example service_error_aborts :
  snd (analyze_meeting (RT := Sample.runtime) (TS := Sample.splitter)
         (GM := Sample.replay) (Sample.analyzer []) Sample.disk
         "test_transcript.md")
  = Raise (ServiceError "no response left").
Proof. vm_compute. reflexivity. Qed.

(** * Further properties *)

(** ** More of the price-table loader *)

Section LoaderMore.

Context {RT : Runtime}.

Lemma find_prices_split (models : list value) (p : price_rates) :
  find_prices models = Ok p ->
  exists pre r post,
    models = (pre ++ r :: post)%list
    /\ Forall other_model pre
    /\ is_target r
    /\ rates_of r = Ok p.
Proof.
  induction models as [|m rest IH]; [discriminate|].
  cbn [find_prices].
  destruct (getitem m "Model") as [name|e] eqn:Hget; simpl; [|discriminate].
  destruct (eq_str name "Gemini 1.5 Pro") eqn:Heq; intros Hp.
  - exists [], m, rest. repeat split; [constructor | | exact Hp].
    exists name. split; [exact Hget | exact Heq].
  - destruct (IH Hp) as (pre & r & post & -> & Hpre & Hr & Hrates).
    exists (m :: pre), r, post. repeat split; try assumption.
    constructor; [|exact Hpre]. exists name. split; [exact Hget | exact Heq].
Qed.

(** X1.  Rates that the loader returns come from the price file: the file
    exists, parses, iterates to a list of records, and the rates are those
    of the first record of the target model, every record before it having
    a model name that is another one. *)
Theorem load_prices_sound (fs : files) (price_file : string) (p : price_rates) :
  _load_prices fs price_file = Ok p ->
  exists content prices pre r post,
    fs !! price_file = Some content
    /\ json_loads content = Some prices
    /\ iter prices = Ok (pre ++ r :: post)%list
    /\ Forall other_model pre
    /\ is_target r
    /\ rates_of r = Ok p.
Proof.
  unfold _load_prices, open_read, json_load.
  destruct (fs !! price_file) as [content|] eqn:Hfile; simpl; [|discriminate].
  destruct (json_loads content) as [prices|] eqn:Hjson; simpl; [|discriminate].
  destruct (iter prices) as [models|e] eqn:Hiter; simpl; [|discriminate].
  intros Hp.
  destruct (find_prices_split _ _ Hp) as (pre & r & post & -> & Hpre & Hr & Hrates).
  exists content, prices, pre, r, post. repeat split; assumption.
Qed.

(** X2.  A record whose model name cannot be read stops the loader, also
    when a record of the target model comes after it: [KeyError] for an
    object without the field, [TypeError] for an entry that is no object. *)
Theorem load_prices_unreadable_record (fs : files)
  (price_file content : string) (pre post : list value) (r : value) :
  fs !! price_file = Some content ->
  json_loads content = Some (VList (pre ++ r :: post)) ->
  Forall other_model pre ->
  (forall items, r = VDict items -> lookup_key "Model" items = None ->
     _load_prices fs price_file = Raise (KeyError "Model"))
  /\ (is_object r = false -> _load_prices fs price_file = Raise TypeError).
Proof.
  intros Hfile Hjson Hpre.
  rewrite (load_prices_table _ _ _ _ Hfile Hjson), find_prices_skip by exact Hpre.
  split.
  - intros items -> Hnone. cbn [find_prices getitem]. now rewrite Hnone.
  - intros Hobj. destruct r; try discriminate Hobj; reflexivity.
Qed.

Lemma keys_first (k : string) (v : value) (rest : list (string * value)) :
  keys [] ((k, v) :: rest) = VStr k :: keys [k] rest.
Proof. reflexivity. Qed.

(** X3.  A price file that is not an array: a number, a boolean or null is
    not iterable ([TypeError]); a non-empty object or string is iterated
    and its first key or character is no record ([TypeError]); an empty
    object or string holds no record (pricing not found). *)
Theorem load_prices_top_level (fs : files) (price_file content : string)
  (prices : value) :
  fs !! price_file = Some content ->
  json_loads content = Some prices ->
  _load_prices fs price_file
  = match prices with
    | VList models => find_prices models
    | VDict [] | VStr EmptyString =>
        Raise (ValueError "Gemini 1.5 Pro pricing not found in price file")
    | _ => Raise TypeError
    end.
Proof.
  intros Hfile Hjson. unfold _load_prices, open_read, json_load.
  rewrite Hfile. simpl. rewrite Hjson. simpl.
  destruct prices as [| b | z | f | s | items | items]; try reflexivity.
  - destruct s; reflexivity.
  - destruct items as [|[k v] rest]; reflexivity.
Qed.

End LoaderMore.

Lemma load_prices_sound_witness :
  exists content prices pre r post,
    Sample.disk !! "two_prices.json" = Some content
    /\ json_loads (Runtime := Sample.runtime) content = Some prices
    /\ iter prices = Ok (pre ++ r :: post)%list
    /\ Forall other_model pre
    /\ is_target r
    /\ rates_of (RT := Sample.runtime) r
       = Ok {| input_rate := 0.075%float; output_rate := 0.30%float |}.
Proof.
  apply (load_prices_sound (RT := Sample.runtime) Sample.disk "two_prices.json").
  reflexivity.
Defined.

Lemma load_prices_unreadable_record_witness :
  _load_prices (RT := Scenario.runtime) Scenario.disk "bare_prices.json"
  = Raise (KeyError "Model").
Proof.
  apply (proj1 (load_prices_unreadable_record (RT := Scenario.runtime)
                  Scenario.disk "bare_prices.json" Scenario.bare_prices_text
                  [] [Scenario.plain_record] Scenario.bare_record
                  eq_refl eq_refl (List.Forall_nil _))
           [("Input", VFloat 1); ("Output", VFloat 1)]); reflexivity.
Defined.

Lemma load_prices_top_level_witness :
  _load_prices (RT := Scenario.runtime) Scenario.disk "object_prices.json"
  = Raise TypeError.
Proof.
  apply (load_prices_top_level (RT := Scenario.runtime) Scenario.disk
           "object_prices.json" Scenario.object_prices_text
           Scenario.plain_record); reflexivity.
Defined.

(** ** More of the loop over the chunks *)

Section RunMore.

Context {RT : Runtime} {TS : TextSplitter} {M : Type} {GM : GenerativeModel M}.

Lemma process_responses_stdout (rs : list response) (st : run_state) :
  stdout (process_responses st rs) = (stdout st ++ warnings_of rs)%list.
Proof.
  unfold process_responses, warnings_of. revert st.
  induction rs as [|r rs IH]; intros st; simpl.
  - now rewrite app_nil_r.
  - rewrite IH. unfold process_response, unparseable at 2.
    destruct (json_loads (text r)); simpl; [reflexivity|].
    now rewrite <- app_assoc.
Qed.

Lemma process_chunks_failure (m m1 m2 : M) (pre post : list string)
  (c : string) (rs : list response) (e : exn) (st : run_state) :
  answers m pre rs m1 ->
  generate_content m1 (prompt c) = (m2, Raise e) ->
  process_chunks m (pre ++ c :: post) st
  = (m2, process_responses st rs, Some e).
Proof.
  intros Hans Hfail. revert st.
  induction Hans as [m | m m1' m' chunk r chunks rs Hgen _ IH]; intros st.
  - simpl. now rewrite Hfail.
  - simpl. rewrite Hgen. now apply IH.
Qed.

(** X4.  A run in which the service answers every chunk: the service is
    left in the state after the last answer, one warning has been printed
    for each response that does not parse, in chunk order, and the method
    returns the merge of the results that parsed together with the costs of
    all the reported token counts. *)
Theorem analyze_meeting_complete_run (self : MeetingAnalyzer M) (fs : files)
  (transcript_file transcript : string) (rs : list response) (m' : M) :
  fs !! transcript_file = Some transcript ->
  answers (model self) (split_text chunk_size chunk_overlap transcript) rs m' ->
  analyze_meeting self fs transcript_file
  = (m', warnings_of rs,
     (combined <- combine_results (parsed_results rs) ;;
      costs <- calculate_costs (used_tokens rs) (prices self) ;;
      Ok (combined, costs))).
Proof.
  intros Hfile Hans.
  pose proof (analyze_meeting_returns _ _ _ _ _ _ Hfile Hans) as Hret.
  rewrite (analyze_meeting_answers _ _ _ _ _ _ Hfile Hans) in Hret |- *.
  simpl in Hret. rewrite Hret, process_responses_stdout. reflexivity.
Qed.

(** X5.  When the service raises on a chunk, the run ends with that
    exception and returns no result: the chunks after it are not sent (the
    service stays in the state the failed call left), and what was printed
    are the warnings of the responses before it. *)
Theorem analyze_meeting_service_failure (self : MeetingAnalyzer M) (fs : files)
  (transcript_file transcript : string) (pre post : list string) (c : string)
  (rs : list response) (m1 m2 : M) (e : exn) :
  fs !! transcript_file = Some transcript ->
  split_text chunk_size chunk_overlap transcript = (pre ++ c :: post)%list ->
  answers (model self) pre rs m1 ->
  generate_content m1 (prompt c) = (m2, Raise e) ->
  analyze_meeting self fs transcript_file = (m2, warnings_of rs, Raise e).
Proof.
  intros Hfile Hsplit Hans Hfail. unfold analyze_meeting, open_read.
  rewrite Hfile, Hsplit, (process_chunks_failure _ _ _ _ _ _ _ _ _ Hans Hfail).
  now rewrite process_responses_stdout.
Qed.

(** X6.  A transcript for which the splitter gives no chunk: the service is
    not called, nothing is printed, and the method returns the empty
    summary, three empty lists and the costs of zero tokens. *)
Theorem analyze_meeting_no_chunks (self : MeetingAnalyzer M) (fs : files)
  (transcript_file transcript : string) :
  fs !! transcript_file = Some transcript ->
  split_text chunk_size chunk_overlap transcript = [] ->
  analyze_meeting self fs transcript_file
  = (model self, [],
     Ok ({| summary := ""; actions := []; positives := []; improvements := [] |},
         {| input_cost := PrimFloat.mul 0%float (input_rate (prices self));
            output_cost := PrimFloat.mul 0%float (output_rate (prices self));
            total_cost :=
              PrimFloat.add
                (PrimFloat.mul 0%float (input_rate (prices self)))
                (PrimFloat.mul 0%float (output_rate (prices self))) |})).
Proof.
  intros Hfile Hsplit. unfold analyze_meeting, open_read.
  rewrite Hfile, Hsplit. reflexivity.
Qed.

Lemma summaries_not_object (vs : list value) :
  Exists (fun v => is_object v = false) vs ->
  summaries vs = Raise AttributeError.
Proof.
  induction 1 as [v vs Hv | v vs _ IH]; cbn [summaries].
  - destruct v; try discriminate Hv; reflexivity.
  - rewrite IH. destruct v as [| | | | | |items]; try reflexivity.
    simpl. destruct (lookup_key "summary" items); reflexivity.
Qed.

Lemma parsed_results_exists (P : value -> Prop) (rs : list response) :
  Exists (fun r => exists v, json_loads (text r) = Some v /\ P v) rs ->
  Exists P (parsed_results rs).
Proof.
  induction 1 as [r rs (v & Hv & HP) | r rs _ IH]; cbn [parsed_results].
  - rewrite Hv. now apply Exists_cons_hd.
  - destruct (json_loads (text r)); [apply Exists_cons_tl|]; exact IH.
Qed.

(** X7.  A response that parses as JSON without being an object (an array,
    a string, a number, null) is not skipped like text that does not parse:
    once every chunk has been answered, the merge raises [AttributeError]
    and the run returns nothing. *)
Theorem analyze_meeting_not_object (self : MeetingAnalyzer M) (fs : files)
  (transcript_file transcript : string) (rs : list response) (m' : M) :
  fs !! transcript_file = Some transcript ->
  answers (model self) (split_text chunk_size chunk_overlap transcript) rs m' ->
  Exists (fun r => exists v, json_loads (text r) = Some v
                             /\ is_object v = false) rs ->
  analyze_meeting self fs transcript_file
  = (m', warnings_of rs, Raise AttributeError).
Proof.
  intros Hfile Hans Hbad.
  rewrite (analyze_meeting_answers _ _ _ _ _ _ Hfile Hans).
  unfold finish, combine_results.
  rewrite process_responses_results, process_responses_stdout. simpl.
  rewrite (summaries_not_object _ (parsed_results_exists _ _ Hbad)).
  reflexivity.
Qed.

End RunMore.

Lemma test_transcript_answers (r : response) :
  answers (GM := Sample.replay) [r]
    (split_text (TextSplitter := Sample.splitter) chunk_size chunk_overlap
       "This is a test transcript.")
    [r] [].
Proof.
  replace (split_text (TextSplitter := Sample.splitter) chunk_size
             chunk_overlap "This is a test transcript.")
    with ["This is a test transcript."] by (symmetry; compute_done).
  eapply answers_cons; [reflexivity | apply answers_nil].
Qed.

Lemma analyze_meeting_complete_run_witness :
  analyze_meeting (RT := Sample.runtime) (TS := Sample.splitter)
    (GM := Sample.replay)
    (Sample.analyzer [Sample.invalid_response; Sample.second_response])
    Sample.disk "long_transcript.md"
  = ([], ["Warning: Could not parse LLM output as JSON: Invalid JSON..."],
     Ok ({| summary := "B"; actions := [VStr "Action 2"]; positives := [];
            improvements := [] |},
         {| input_cost := 0.015%float; output_cost := 0.03%float;
            total_cost := 0.045%float |})).
Proof.
  apply (analyze_meeting_complete_run (RT := Sample.runtime)
           (TS := Sample.splitter) (GM := Sample.replay)
           (Sample.analyzer [Sample.invalid_response; Sample.second_response])
           Sample.disk "long_transcript.md" Sample.long_transcript
           [Sample.invalid_response; Sample.second_response] []).
  - reflexivity.
  - apply long_transcript_answers.
Defined.

Lemma analyze_meeting_service_failure_witness :
  analyze_meeting (RT := Sample.runtime) (TS := Sample.splitter)
    (GM := Sample.replay) (Sample.analyzer [Sample.invalid_response])
    Sample.disk "long_transcript.md"
  = ([], ["Warning: Could not parse LLM output as JSON: Invalid JSON..."],
     Raise (ServiceError "no response left")).
Proof.
  apply (analyze_meeting_service_failure (RT := Sample.runtime)
           (TS := Sample.splitter) (GM := Sample.replay)
           (Sample.analyzer [Sample.invalid_response])
           Sample.disk "long_transcript.md" Sample.long_transcript
           [Sample.replicate 30000 "x"] [] (Sample.replicate 1001 "x")
           [Sample.invalid_response] [] []).
  - reflexivity.
  - apply long_transcript_chunks.
  - eapply answers_cons; [reflexivity | apply answers_nil].
  - reflexivity.
Defined.

Lemma analyze_meeting_no_chunks_witness :
  analyze_meeting (RT := Sample.runtime) (TS := Scenario.skipping_splitter)
    (GM := Sample.replay) (Sample.analyzer [Sample.good_response])
    Scenario.disk "empty_transcript.md"
  = ([Sample.good_response], [],
     Ok ({| summary := ""; actions := []; positives := []; improvements := [] |},
         {| input_cost := 0%float; output_cost := 0%float;
            total_cost := 0%float |})).
Proof.
  apply (analyze_meeting_no_chunks (RT := Sample.runtime)
           (TS := Scenario.skipping_splitter) (GM := Sample.replay)
           (Sample.analyzer [Sample.good_response])
           Scenario.disk "empty_transcript.md" EmptyString); reflexivity.
Defined.

Lemma analyze_meeting_not_object_witness :
  analyze_meeting (RT := Sample.runtime) (TS := Sample.splitter)
    (GM := Sample.replay) (Sample.analyzer [Scenario.array_response])
    Sample.disk "test_transcript.md"
  = ([], [], Raise AttributeError).
Proof.
  apply (analyze_meeting_not_object (RT := Sample.runtime)
           (TS := Sample.splitter) (GM := Sample.replay)
           (Sample.analyzer [Scenario.array_response])
           Sample.disk "test_transcript.md" "This is a test transcript."
           [Scenario.array_response] []).
  - reflexivity.
  - apply test_transcript_answers.
  - apply Exists_cons_hd. exists (VList [Sample.gemini_record]).
    split; reflexivity.
Defined.

(** ** More of the merge *)

Lemma summaries_objects (rs : list value) :
  Forall (fun r => is_object r = true) rs ->
  summaries rs = Ok (map summary_value rs).
Proof.
  induction 1 as [|r rs Hr _ IH]; [reflexivity|].
  destruct r as [| | | | | |items]; try discriminate Hr.
  cbn [summaries get summary_value map]. rewrite IH.
  destruct (lookup_key "summary" items); reflexivity.
Qed.

Lemma strings_of_not_str (vs : list value) :
  Exists (fun v => is_str v = false) vs -> strings_of vs = Raise TypeError.
Proof.
  induction 1 as [v vs Hv | v vs _ IH]; cbn [strings_of].
  - destruct v; try discriminate Hv; reflexivity.
  - rewrite IH. destruct v; reflexivity.
Qed.

(** X8.  When every result is an object and the summary of one of them is
    there but is no string (a number, null, a list), the merge raises
    [TypeError]. *)
Theorem combine_results_summary_not_str (rs : list value) :
  Forall (fun r => is_object r = true) rs ->
  Exists (fun r => is_str (summary_value r) = false) rs ->
  combine_results rs = Raise TypeError.
Proof.
  intros Hobj Hbad. unfold combine_results, join.
  rewrite (summaries_objects _ Hobj). simpl.
  rewrite strings_of_not_str; [reflexivity|].
  clear Hobj. induction Hbad as [r rs Hr | r rs _ IH]; cbn [map].
  - now apply Exists_cons_hd.
  - now apply Exists_cons_tl.
Qed.

Lemma combine_results_summary_not_str_witness :
  combine_results [Sample.test_result; VDict [("summary", VNone)]]
  = Raise TypeError.
Proof.
  apply (combine_results_summary_not_str
           [Sample.test_result; VDict [("summary", VNone)]]).
  - repeat constructor.
  - apply Exists_cons_tl, Exists_cons_hd. reflexivity.
Defined.

Lemma summaries_app (a b xs ys : list value) :
  summaries a = Ok xs -> summaries b = Ok ys ->
  summaries (a ++ b) = Ok (xs ++ ys)%list.
Proof.
  revert xs. induction a as [|r a IH]; intros xs; cbn [summaries app].
  - intros [= <-] Hb. exact Hb.
  - destruct (get r "summary" (VStr "")) as [s|e]; simpl; [|discriminate].
    destruct (summaries a) as [ss|e]; simpl; [|discriminate].
    intros [= <-] Hb. now rewrite (IH ss eq_refl Hb).
Qed.

Lemma strings_of_app (a b : list value) (xs ys : list string) :
  strings_of a = Ok xs -> strings_of b = Ok ys ->
  strings_of (a ++ b) = Ok (xs ++ ys)%list.
Proof.
  revert xs. induction a as [|v a IH]; intros xs; cbn [strings_of app].
  - intros [= <-] Hb. exact Hb.
  - destruct v; try discriminate.
    destruct (strings_of a) as [ss|e]; simpl; [|discriminate].
    intros [= <-] Hb. now rewrite (IH ss eq_refl Hb).
Qed.

Lemma gather_app (field : string) (a b xs ys : list value) :
  gather field a = Ok xs -> gather field b = Ok ys ->
  gather field (a ++ b) = Ok (xs ++ ys)%list.
Proof.
  revert xs. induction a as [|r a IH]; intros xs; cbn [gather app].
  - intros [= <-] Hb. exact Hb.
  - destruct (get r field (VList [])) as [v|e]; simpl; [|discriminate].
    destruct (iter v) as [items|e]; simpl; [|discriminate].
    destruct (gather field a) as [more|e]; simpl; [|discriminate].
    intros [= <-] Hb. rewrite (IH more eq_refl Hb). simpl.
    now rewrite app_assoc.
Qed.

Lemma string_append_assoc (a b c : string) :
  ((a ++ b) ++ c = a ++ (b ++ c))%string.
Proof.
  induction a as [|ch a IH]; [reflexivity|].
  change (String ch ((a ++ b) ++ c) = String ch (a ++ b ++ c))%string.
  now rewrite IH.
Qed.

Lemma concat_sep_app (sep : string) (xs ys : list string) :
  xs <> [] -> ys <> [] ->
  String.concat sep (xs ++ ys)
  = (String.concat sep xs ++ sep ++ String.concat sep ys)%string.
Proof.
  intros Hxs Hys. induction xs as [|x xs IH]; [congruence|].
  destruct xs as [|x' xs].
  - destruct ys as [|y ys]; [congruence|]. reflexivity.
  - change (String.concat sep ((x :: x' :: xs) ++ ys))
      with (x ++ sep ++ String.concat sep ((x' :: xs) ++ ys))%string.
    rewrite IH by discriminate.
    change (String.concat sep (x :: x' :: xs))
      with (x ++ sep ++ String.concat sep (x' :: xs))%string.
    now rewrite !string_append_assoc.
Qed.

Lemma summaries_length (rs ss : list value) :
  summaries rs = Ok ss -> length ss = length rs.
Proof.
  revert ss. induction rs as [|r rs IH]; intros ss; cbn [summaries].
  - now intros [= <-].
  - destruct (get r "summary" (VStr "")); simpl; [|discriminate].
    destruct (summaries rs) as [ss'|]; simpl; [|discriminate].
    intros [= <-]. simpl. now rewrite (IH ss' eq_refl).
Qed.

Lemma strings_of_length (vs : list value) (ss : list string) :
  strings_of vs = Ok ss -> length ss = length vs.
Proof.
  revert ss. induction vs as [|v vs IH]; intros ss; cbn [strings_of].
  - now intros [= <-].
  - destruct v; try discriminate.
    destruct (strings_of vs) as [ss'|]; simpl; [|discriminate].
    intros [= <-]. simpl. now rewrite (IH ss' eq_refl).
Qed.

Lemma combine_results_inv (rs : list value) (c : combined_results) :
  combine_results rs = Ok c ->
  exists ss strs,
    summaries rs = Ok ss
    /\ strings_of ss = Ok strs
    /\ summary c = String.concat newline strs
    /\ gather "actions" rs = Ok (actions c)
    /\ gather "positives" rs = Ok (positives c)
    /\ gather "improvements" rs = Ok (improvements c).
Proof.
  unfold combine_results, join.
  destruct (summaries rs) as [ss|] eqn:Hss; simpl; [|discriminate].
  destruct (strings_of ss) as [strs|] eqn:Hstrs; simpl; [|discriminate].
  destruct (gather "actions" rs) as [a|]; simpl; [|discriminate].
  destruct (gather "positives" rs) as [p|]; simpl; [|discriminate].
  destruct (gather "improvements" rs) as [i|]; simpl; [|discriminate].
  intros [= <-]. exists ss, strs. repeat split; solve [reflexivity | assumption].
Qed.

(** X10.  Merging is compositional: when two non-empty batches of results
    merge, the two batches put one after the other merge into the first
    summary, a newline and the second summary, and into each list of the
    first merge followed by the same list of the second. *)
Theorem combine_results_app (rs1 rs2 : list value) (c1 c2 : combined_results) :
  combine_results rs1 = Ok c1 ->
  combine_results rs2 = Ok c2 ->
  rs1 <> [] ->
  rs2 <> [] ->
  combine_results (rs1 ++ rs2)
  = Ok {| summary := (summary c1 ++ newline ++ summary c2)%string;
          actions := (actions c1 ++ actions c2)%list;
          positives := (positives c1 ++ positives c2)%list;
          improvements := (improvements c1 ++ improvements c2)%list |}.
Proof.
  intros H1 H2 Hne1 Hne2.
  destruct (combine_results_inv _ _ H1)
    as (ss1 & strs1 & Hs1 & Hstr1 & -> & Ha1 & Hp1 & Hi1).
  destruct (combine_results_inv _ _ H2)
    as (ss2 & strs2 & Hs2 & Hstr2 & -> & Ha2 & Hp2 & Hi2).
  unfold combine_results, join.
  rewrite (summaries_app _ _ _ _ Hs1 Hs2). simpl.
  rewrite (strings_of_app _ _ _ _ Hstr1 Hstr2). simpl.
  rewrite (gather_app _ _ _ _ _ Ha1 Ha2), (gather_app _ _ _ _ _ Hp1 Hp2),
    (gather_app _ _ _ _ _ Hi1 Hi2). simpl.
  rewrite concat_sep_app; [reflexivity| |].
  - intros ->. apply strings_of_length in Hstr1. apply summaries_length in Hs1.
    destruct rs1; [congruence|]. simpl in *. lia.
  - intros ->. apply strings_of_length in Hstr2. apply summaries_length in Hs2.
    destruct rs2; [congruence|]. simpl in *. lia.
Qed.

Lemma combine_results_app_witness :
  combine_results ([Sample.test_result] ++ [Sample.second_result])
  = Ok {| summary := ("Test summary" ++ newline ++ "B")%string;
          actions := [VStr "Action 1"; VStr "Action 2"];
          positives := [VStr "Positive 1"];
          improvements := [VStr "Improvement 1"] |}.
Proof.
  apply (combine_results_app [Sample.test_result] [Sample.second_result]
           {| summary := "Test summary"; actions := [VStr "Action 1"];
              positives := [VStr "Positive 1"];
              improvements := [VStr "Improvement 1"] |}
           {| summary := "B"; actions := [VStr "Action 2"]; positives := [];
              improvements := [] |});
    [reflexivity | reflexivity | discriminate | discriminate].
Defined.

Lemma summaries_inv (rs ss : list value) :
  summaries rs = Ok ss ->
  Forall (fun r => is_object r = true) rs /\ ss = map summary_value rs.
Proof.
  revert ss. induction rs as [|r rs IH]; intros ss; cbn [summaries].
  - intros [= <-]. split; [constructor | reflexivity].
  - destruct r as [| | | | | |items]; try discriminate.
    cbn [get summary_value map].
    destruct (summaries rs) as [ss'|e].
    + destruct (IH ss' eq_refl) as [Hobj ->].
      destruct (lookup_key "summary" items); simpl; intros [= <-];
        (split; [now constructor | reflexivity]).
    + destruct (lookup_key "summary" items); discriminate.
Qed.

Lemma strings_of_inv (vs : list value) (ss : list string) :
  strings_of vs = Ok ss -> Forall (fun v => is_str v = true) vs.
Proof.
  revert ss. induction vs as [|v vs IH]; intros ss; cbn [strings_of].
  - constructor.
  - destruct v; try discriminate.
    destruct (strings_of vs) as [ss'|e]; simpl; [|discriminate].
    intros _. constructor; [reflexivity | now apply (IH ss')].
Qed.

(** X9.  The merge returns a result only if every parsed result is an
    object whose summary, when it has one, is a string. *)
Theorem combine_results_ok_objects (rs : list value) (c : combined_results) :
  combine_results rs = Ok c ->
  Forall (fun r => is_object r = true /\ is_str (summary_value r) = true) rs.
Proof.
  intros Hc.
  destruct (combine_results_inv _ _ Hc) as (ss & strs & Hss & Hstrs & _).
  destruct (summaries_inv _ _ Hss) as [Hobj ->].
  apply strings_of_inv in Hstrs. clear Hc Hss.
  induction Hobj as [|r rs Hr _ IH]; [constructor|].
  cbn [map] in Hstrs. inversion Hstrs as [|v vs Hv Hvs]; subst.
  constructor; [split; assumption | exact (IH Hvs)].
Qed.

Lemma combine_results_ok_objects_witness :
  Forall (fun r => is_object r = true /\ is_str (summary_value r) = true)
    [Sample.partial_result; Sample.test_result].
Proof.
  apply (combine_results_ok_objects
           [Sample.partial_result; Sample.test_result]
           {| summary := ("Short" ++ newline ++ "Test summary")%string;
              actions := [VStr "Action 3"; VStr "Action 1"];
              positives := [VStr "Positive 1"];
              improvements := [VStr "Improvement 1"] |}).
  reflexivity.
Defined.

(** ** Invariants of the loop *)

Section LoopMore.

Context {RT : Runtime} {M : Type} {GM : GenerativeModel M}.

Lemma process_response_accounts (st : run_state) (r : response) :
  (length (all_results (process_response st r))
   + length (stdout (process_response st r))
   = S (length (all_results st) + length (stdout st)))%nat.
Proof.
  unfold process_response. destruct (json_loads (text r)); simpl;
    rewrite length_app; simpl; lia.
Qed.

(** X11.  Whatever the service is, a loop that ends without an exception
    has accounted for every chunk once: each chunk added one parsed result
    or one warning, never both and never neither. *)
Theorem process_chunks_accounts (chunks : list string) (m m' : M)
  (st st' : run_state) :
  process_chunks m chunks st = (m', st', None) ->
  (length (all_results st') + length (stdout st')
   = length (all_results st) + length (stdout st) + length chunks)%nat.
Proof.
  revert m st. induction chunks as [|c chunks IH]; intros m st; cbn [process_chunks].
  - intros [= _ <-]. simpl. lia.
  - destruct (generate_content m (prompt c)) as [m1 [r|e]]; [|discriminate].
    intros Hrun. rewrite (IH _ _ Hrun), process_response_accounts. simpl. lia.
Qed.

(** X12.  Whatever the service does, also when it raises, the loop keeps
    what it had collected: the results and the warnings it started with
    are the first ones of the state it reaches, in the same order. *)
Theorem process_chunks_keeps (chunks : list string) (m : M) (st : run_state) :
  exists results warnings,
    all_results (snd (fst (process_chunks m chunks st)))
    = (all_results st ++ results)%list
    /\ stdout (snd (fst (process_chunks m chunks st)))
       = (stdout st ++ warnings)%list.
Proof.
  revert m st. induction chunks as [|c chunks IH]; intros m st; cbn [process_chunks].
  - exists [], []. simpl. now rewrite !app_nil_r.
  - destruct (generate_content m (prompt c)) as [m1 [r|e]].
    + destruct (IH m1 (process_response st r)) as (results & warnings & Hr & Hw).
      rewrite Hr, Hw. unfold process_response.
      destruct (json_loads (text r)) as [v|]; simpl.
      * exists (v :: results), warnings. now rewrite <- app_assoc.
      * exists results, (warning r :: warnings). now rewrite <- app_assoc.
    + exists [], []. simpl. now rewrite !app_nil_r.
Qed.

Lemma used_tokens_sums (rs : list response) :
  input_tokens (used_tokens rs) = sum_Z (map prompt_tokens rs)
  /\ output_tokens (used_tokens rs) = sum_Z (map candidates_tokens rs).
Proof.
  induction rs as [|r rs [IHi IHo]]; [split; reflexivity|].
  change (sum_Z (map prompt_tokens (r :: rs)))
    with (prompt_tokens r + sum_Z (map prompt_tokens rs)).
  change (sum_Z (map candidates_tokens (r :: rs)))
    with (candidates_tokens r + sum_Z (map candidates_tokens rs)).
  rewrite <- IHi, <- IHo. cbn [used_tokens].
  unfold count_tokens, prompt_tokens, candidates_tokens.
  destruct (usage r); simpl; lia.
Qed.

(** X13.  After a loop in which every chunk is answered, the token counts
    are the counts the loop started with plus the sums, over all the
    responses, of the prompt and of the candidates token counts, a response
    without usage metadata counting for zero. *)
Theorem process_chunks_token_sums (m m' : M) (chunks : list string)
  (rs : list response) (st : run_state) :
  answers m chunks rs m' ->
  exists st',
    process_chunks m chunks st = (m', st', None)
    /\ input_tokens (total_tokens st')
       = input_tokens (total_tokens st) + sum_Z (map prompt_tokens rs)
    /\ output_tokens (total_tokens st')
       = output_tokens (total_tokens st) + sum_Z (map candidates_tokens rs).
Proof.
  intros Hans. exists (process_responses st rs).
  split; [now apply process_chunks_answers|].
  rewrite process_responses_tokens.
  destruct (used_tokens_sums rs) as [Hi Ho]. simpl. now rewrite Hi, Ho.
Qed.

(** X14.  The token counts, and so the costs, do not depend on the order in
    which the responses arrive. *)
Theorem process_responses_tokens_permutation (rs rs' : list response)
  (st : run_state) (p : price_rates) :
  Permutation rs rs' ->
  total_tokens (process_responses st rs) = total_tokens (process_responses st rs')
  /\ calculate_costs (total_tokens (process_responses st rs)) p
     = calculate_costs (total_tokens (process_responses st rs')) p.
Proof.
  intros Hperm.
  assert (Heq : used_tokens rs = used_tokens rs').
  { induction Hperm as [| r l l' _ IH | r1 r2 l | l1 l2 l3 _ IH1 _ IH2].
    - reflexivity.
    - simpl. now rewrite IH.
    - simpl. unfold count_tokens. destruct (usage r1), (usage r2);
        try reflexivity. apply token_usage_eq; simpl; lia.
    - now rewrite IH1. }
  rewrite !process_responses_tokens, Heq. split; reflexivity.
Qed.

End LoopMore.

Lemma process_chunks_accounts_witness :
  (length (all_results
             (process_responses (RT := Sample.runtime) initial_state
                [Sample.invalid_response; Sample.second_response]))
   + length (stdout
               (process_responses (RT := Sample.runtime) initial_state
                  [Sample.invalid_response; Sample.second_response]))
   = length (all_results initial_state) + length (stdout initial_state)
     + length ["first"; "second"])%nat.
Proof.
  apply (process_chunks_accounts (RT := Sample.runtime) (GM := Sample.replay)
           ["first"; "second"]
           [Sample.invalid_response; Sample.second_response] []).
  reflexivity.
Defined.

Lemma process_chunks_token_sums_witness :
  exists st',
    process_chunks (RT := Sample.runtime) (GM := Sample.replay)
      [Sample.partial_response; Sample.second_response] ["first"; "second"]
      initial_state
    = ([], st', None)
    /\ input_tokens (total_tokens st') = 0 + (0 + (100 + 0))
    /\ output_tokens (total_tokens st') = 0 + (0 + (50 + 0)).
Proof.
  apply (process_chunks_token_sums (RT := Sample.runtime) (GM := Sample.replay)
           [Sample.partial_response; Sample.second_response] []
           ["first"; "second"]
           [Sample.partial_response; Sample.second_response] initial_state).
  eapply answers_cons; [reflexivity|].
  eapply answers_cons; [reflexivity|]. apply answers_nil.
Defined.

Lemma process_responses_tokens_permutation_witness :
  total_tokens (process_responses (RT := Sample.runtime) initial_state
                  [Sample.partial_response; Sample.second_response])
  = total_tokens (process_responses (RT := Sample.runtime) initial_state
                    [Sample.second_response; Sample.partial_response])
  /\ calculate_costs
       (total_tokens (process_responses (RT := Sample.runtime) initial_state
                        [Sample.partial_response; Sample.second_response]))
       Sample.test_rates
     = calculate_costs
         (total_tokens (process_responses (RT := Sample.runtime) initial_state
                          [Sample.second_response; Sample.partial_response]))
         Sample.test_rates.
Proof.
  apply (process_responses_tokens_permutation (RT := Sample.runtime)
           [Sample.partial_response; Sample.second_response]
           [Sample.second_response; Sample.partial_response]
           initial_state Sample.test_rates).
  apply perm_swap.
Defined.

(** ** The prompt and the warning *)

Lemma string_length_append (a b : string) :
  String.length (a ++ b) = (String.length a + String.length b)%nat.
Proof.
  induction a as [|ch a IH]; [reflexivity|].
  change (S (String.length (a ++ b)) = S (String.length a + String.length b))%nat.
  now rewrite IH.
Qed.

Lemma substring_after (a b : string) (n : nat) :
  String.substring (String.length a) n (a ++ b) = String.substring 0 n b.
Proof.
  induction a as [|ch a IH]; [reflexivity|]. exact IH.
Qed.

Lemma substring_whole (b c : string) :
  String.substring 0 (String.length b) (b ++ c) = b.
Proof.
  induction b as [|ch b IH]; [now destruct c|].
  change (String ch (String.substring 0 (String.length b) (b ++ c)) = String ch b).
  now rewrite IH.
Qed.

(** X15.  The prompt holds the chunk unchanged, right after the fixed text
    that comes before it, and two chunks with the same prompt are the same
    chunk. *)
Theorem prompt_embeds_chunk (chunk : string) :
  String.substring (String.length prompt_prefix) (String.length chunk)
    (prompt chunk) = chunk
  /\ forall other, prompt chunk = prompt other -> chunk = other.
Proof.
  assert (Hembed : forall c,
            String.substring (String.length prompt_prefix) (String.length c)
              (prompt c) = c).
  { intros c. unfold prompt. now rewrite substring_after, substring_whole. }
  split; [apply Hembed|].
  intros other Heq.
  assert (Hlen : String.length chunk = String.length other).
  { apply (f_equal String.length) in Heq. unfold prompt in Heq.
    rewrite !string_length_append in Heq. lia. }
  rewrite <- (Hembed chunk), Heq, Hlen. apply Hembed.
Qed.

Lemma substring_prefix_split (n : nat) (s : string) :
  exists rest,
    s = (String.substring 0 n s ++ rest)%string
    /\ String.length (String.substring 0 n s) = Nat.min n (String.length s).
Proof.
  revert s. induction n as [|n IH]; intros [|ch s].
  - exists EmptyString. split; reflexivity.
  - exists (String ch s). split; reflexivity.
  - exists EmptyString. split; reflexivity.
  - destruct (IH s) as (rest & Hs & Hlen). exists rest. split.
    + change (String ch s = String ch (String.substring 0 n s ++ rest)).
      now rewrite <- Hs.
    + change (S (String.length (String.substring 0 n s))
              = S (Nat.min n (String.length s))).
      now rewrite Hlen.
Qed.

(** X16.  The warning for a response that does not parse shows a preview
    of its text between a fixed beginning and three dots: the preview is
    the beginning of the text, all of it when it has at most 100
    characters and its first 100 otherwise. *)
Theorem warning_preview (r : response) :
  exists preview rest,
    warning r
    = ("Warning: Could not parse LLM output as JSON: " ++ preview ++ "...")%string
    /\ text r = (preview ++ rest)%string
    /\ String.length preview = Nat.min 100 (String.length (text r)).
Proof.
  destruct (substring_prefix_split 100 (text r)) as (rest & Hs & Hlen).
  exists (String.substring 0 100 (text r)), rest. repeat split; assumption.
Qed.

(** ** Failures of the cost calculation *)

Lemma truediv_1000_raise (a : Z) (e : exn) :
  truediv a 1000 = Raise e -> e = OverflowError /\ small a = false.
Proof.
  unfold truediv. change (1000 =? 0) with false. cbv iota.
  destruct (small a); [discriminate|]. cbn [andb].
  destruct (is_infinite _); [|discriminate].
  intros [= <-]. split; reflexivity.
Qed.

Lemma cost_of_raise (tokens : Z) (rate : float) (e : exn) :
  cost_of tokens rate = Raise e -> e = OverflowError /\ small tokens = false.
Proof.
  unfold cost_of.
  destruct (truediv tokens 1000) as [q|e'] eqn:Hq; simpl; [discriminate|].
  intros [= ->]. exact (truediv_1000_raise _ _ Hq).
Qed.

(** X17.  The cost calculation can fail in one way only: with
    [OverflowError], and only when a token count is [2^53] or more in
    magnitude.  It never divides by zero. *)
Theorem calculate_costs_failure (t : token_usage) (p : price_rates) (e : exn) :
  calculate_costs t p = Raise e ->
  e = OverflowError
  /\ (small (input_tokens t) = false \/ small (output_tokens t) = false).
Proof.
  unfold calculate_costs.
  destruct (cost_of (input_tokens t) (input_rate p)) as [ic|e1] eqn:Hic; simpl.
  - destruct (cost_of (output_tokens t) (output_rate p)) as [oc|e2] eqn:Hoc;
      simpl; [discriminate|].
    intros [= ->]. destruct (cost_of_raise _ _ _ Hoc) as [-> Hsmall]. auto.
  - intros [= ->]. destruct (cost_of_raise _ _ _ Hic) as [-> Hsmall]. auto.
Qed.

Lemma calculate_costs_failure_witness :
  OverflowError = OverflowError
  /\ (small (10 ^ 400) = false \/ small 50 = false).
Proof.
  apply (calculate_costs_failure
           {| input_tokens := 10 ^ 400; output_tokens := 50 |}
           Sample.test_rates OverflowError).
  vm_compute. reflexivity.
Defined.

(** ** More of the converter *)

Section ConverterMore.

Context {PL : PathLib} {PD : Pandas} {DK : WriteAccess}.

(** X18.  The converter touches one path at most, the output path: every
    other path holds afterwards what it held before, however the run ends;
    and no file disappears. *)
Theorem csv2json_frame (fs : files) (source : string) (output : option string)
  (p : string) :
  (p <> output_path_of source output ->
   fst (fst (csv2json fs source output)) !! p = fs !! p)
  /\ (is_Some (fs !! p) -> is_Some (fst (fst (csv2json fs source output)) !! p)).
Proof.
  unfold csv2json, output_path_of.
  destruct (fs !! resolve source) as [content|]; [|now split].
  destruct (read_csv content) as [df|e]; [|now split].
  destruct (open_write _) as [e|]; [now split|]. simpl. split.
  - intros Hne. now rewrite lookup_insert_ne.
  - intros Hsome.
    destruct (decide (match given output with
                      | Some o => resolve o
                      | None => with_suffix (resolve source) ".json"
                      end = p)) as [<- | Hne].
    + rewrite lookup_insert_eq. eauto.
    + now rewrite lookup_insert_ne.
Qed.

(** X19.  When the converter raises, whatever the reason, it has written
    nothing: the file system is as it was and no write is among the
    events. *)
Theorem csv2json_failure_writes_nothing (fs : files) (source : string)
  (output : option string) (e : exn) :
  snd (csv2json fs source output) = Raise e ->
  fst (fst (csv2json fs source output)) = fs
  /\ existsb is_write (snd (fst (csv2json fs source output))) = false.
Proof.
  unfold csv2json.
  destruct (fs !! resolve source) as [content|]; [|now split].
  destruct (read_csv content) as [df|e']; [|now split].
  destruct (open_write _) as [e'|]; [now split | discriminate].
Qed.

(** X20.  Converting again changes nothing: after a run that ended
    normally and wrote to a path other than the source, a second run with
    the same arguments gives the same file system, the same events and the
    same outcome. *)
Theorem csv2json_again (fs : files) (source : string) (output : option string) :
  snd (csv2json fs source output) = Ok tt ->
  output_path_of source output <> resolve source ->
  csv2json (fst (fst (csv2json fs source output))) source output
  = csv2json fs source output.
Proof.
  unfold csv2json, output_path_of.
  destruct (fs !! resolve source) as [content|] eqn:Hsrc; [|discriminate].
  destruct (read_csv content) as [df|e] eqn:Hread; [|discriminate].
  destruct (open_write _) as [e|]; [discriminate|].
  cbn [fst snd]. intros _ Hne.
  rewrite lookup_insert_ne, Hsrc by exact Hne. cbv zeta.
  rewrite Hread. now rewrite insert_insert_eq.
Qed.

(** X21.  An empty [--output] counts as none: the run is the run without
    the option, and writes beside the source. *)
Theorem csv2json_empty_output (fs : files) (source : string) :
  csv2json fs source (Some EmptyString) = csv2json fs source None
  /\ output_path_of source (Some EmptyString)
     = with_suffix (resolve source) ".json".
Proof.
  split; reflexivity.
Qed.

(** X22.  On a source that exists and that pandas parses, the run is decided
    by the open of the output path.  When the open succeeds the run ends
    normally and the output path holds the JSON text of the parsed table;
    the source still holds its text unless the output path is the source
    itself, in which case the source has been replaced by the JSON text.
    When the open raises (a directory that does not exist, a path that is a
    directory, no permission), the run raises that exception after reading
    the source, and nothing is written or printed. *)
Theorem csv2json_written (fs : files) (source content : string)
  (output : option string) (df : DataFrame) :
  fs !! resolve source = Some content ->
  read_csv content = Ok df ->
  (open_write (output_path_of source output) = None ->
   snd (csv2json fs source output) = Ok tt
   /\ fst (fst (csv2json fs source output)) !! output_path_of source output
      = Some (to_json df)
   /\ fst (fst (csv2json fs source output)) !! resolve source
      = Some (if decide (output_path_of source output = resolve source)
              then to_json df else content))
  /\ (forall e, open_write (output_path_of source output) = Some e ->
      csv2json fs source output = (fs, [ReadCsv (resolve source)], Raise e)).
Proof.
  intros Hsrc Hread. unfold csv2json, output_path_of.
  rewrite Hsrc, Hread. split.
  - intros ->. simpl. repeat split.
    + apply lookup_insert_eq.
    + destruct (decide _) as [-> | Hne].
      * apply lookup_insert_eq.
      * now rewrite lookup_insert_ne.
  - now intros e ->.
Qed.

End ConverterMore.

Lemma csv2json_failure_writes_nothing_witness :
  fst (fst (csv2json (PL := Sample.paths) (PD := Sample.pandas)
              (DK := Sample.writable) Scenario.csv_disk "bad.csv" None))
  = Scenario.csv_disk
  /\ existsb is_write
       (snd (fst (csv2json (PL := Sample.paths) (PD := Sample.pandas)
                    (DK := Sample.writable) Scenario.csv_disk "bad.csv"
                    None))) = false.
Proof.
  apply (csv2json_failure_writes_nothing (PL := Sample.paths)
           (PD := Sample.pandas) (DK := Sample.writable) Scenario.csv_disk
           "bad.csv" None (ValueError "No columns to parse from file")).
  reflexivity.
Defined.

Lemma csv2json_again_witness :
  csv2json (PL := Sample.paths) (PD := Sample.pandas) (DK := Sample.writable)
    (fst (fst (csv2json (PL := Sample.paths) (PD := Sample.pandas)
                 (DK := Sample.writable) Sample.csv_disk "data.csv" None)))
    "data.csv" None
  = csv2json (PL := Sample.paths) (PD := Sample.pandas) (DK := Sample.writable)
      Sample.csv_disk "data.csv" None.
Proof.
  apply (csv2json_again (PL := Sample.paths) (PD := Sample.pandas)
           (DK := Sample.writable) Sample.csv_disk "data.csv" None).
  - reflexivity.
  - discriminate.
Defined.

Lemma csv2json_written_witness :
  (snd (csv2json (PL := Sample.paths) (PD := Sample.pandas)
          (DK := Sample.writable) Sample.csv_disk "data.csv"
          (Some "/work/data.csv")) = Ok tt
   /\ fst (fst (csv2json (PL := Sample.paths) (PD := Sample.pandas)
                  (DK := Sample.writable) Sample.csv_disk "data.csv"
                  (Some "/work/data.csv")))
      !! "/work/data.csv" = Some Sample.csv_json
   /\ fst (fst (csv2json (PL := Sample.paths) (PD := Sample.pandas)
                  (DK := Sample.writable) Sample.csv_disk "data.csv"
                  (Some "/work/data.csv")))
      !! "/work/data.csv" = Some Sample.csv_json)
  /\ csv2json (PL := Sample.paths) (PD := Sample.pandas)
       (DK := Scenario.no_directory) Sample.csv_disk "data.csv"
       (Some "/gone/out.json")
     = (Sample.csv_disk, [ReadCsv "/work/data.csv"],
        Raise (FileNotFoundError "/gone/out.json")).
Proof.
  split.
  - apply (csv2json_written (PL := Sample.paths) (PD := Sample.pandas)
             (DK := Sample.writable) Sample.csv_disk "data.csv"
             Sample.csv_text (Some "/work/data.csv") Sample.csv_json);
      reflexivity.
  - apply (csv2json_written (PL := Sample.paths) (PD := Sample.pandas)
             (DK := Scenario.no_directory) Sample.csv_disk "data.csv"
             Sample.csv_text (Some "/gone/out.json") Sample.csv_json);
      reflexivity.
Defined.

(** ** main *)

Section Main.

Context {RT : Runtime} {TS : TextSplitter} {FM : Formatting} {M : Type}
  {GM : GenerativeModel M} {PV : Provider M}.

(** X23.  [main] fails at start-up without printing anything and without a
    request to the service: with the credential error when the API key is
    not set or empty, whatever the files are; and, with a key, with the
    exception of the loader when the price table cannot be loaded, the
    service being left as it was connected. *)
Theorem main_startup_failure (env : gmap string string) (fs : files) :
  (env !! "GOOGLE_API_KEY" = None \/ env !! "GOOGLE_API_KEY" = Some EmptyString ->
   main env fs
   = (None, [],
      Raise (ValueError "Please set GOOGLE_API_KEY environment variable")))
  /\ (forall api_key e,
        env !! "GOOGLE_API_KEY" = Some api_key ->
        api_key <> EmptyString ->
        _load_prices fs price_file_path = Raise e ->
        main env fs = (Some (connect api_key "gemini-1.5-pro"), [], Raise e)).
Proof.
  split.
  - intros [Hkey | Hkey]; unfold main; now rewrite Hkey.
  - intros api_key e Hkey Hne Hload. unfold main, MeetingAnalyzer_init.
    rewrite Hkey, Hload. destruct api_key; [congruence | reflexivity].
Qed.

(** X24.  With an API key, a price table that loads, a transcript and a
    service that answers every chunk with results that merge, [main] ends
    normally having printed the warnings of the responses that did not
    parse and then the report of the merged result and of the costs
    computed with the loaded rates. *)
Theorem main_complete_run (env : gmap string string) (fs : files)
  (api_key transcript : string) (p : price_rates) (rs : list response)
  (m' : M) (c : combined_results) (costs : cost_estimate) :
  env !! "GOOGLE_API_KEY" = Some api_key ->
  api_key <> EmptyString ->
  _load_prices fs price_file_path = Ok p ->
  fs !! transcript_file_path = Some transcript ->
  answers (connect api_key "gemini-1.5-pro")
    (split_text chunk_size chunk_overlap transcript) rs m' ->
  combine_results (parsed_results rs) = Ok c ->
  calculate_costs (used_tokens rs) p = Ok costs ->
  main env fs = (Some m', (warnings_of rs ++ report c costs)%list, Ok tt).
Proof.
  intros Hkey Hne Hload Hfile Hans Hc Hcosts.
  unfold main, MeetingAnalyzer_init. rewrite Hkey, Hload.
  destruct api_key as [|ch key]; [congruence|]. cbn [bind].
  rewrite (analyze_meeting_answers
             {| model := connect (String ch key) "gemini-1.5-pro"; prices := p |}
             fs transcript_file_path transcript rs m' Hfile Hans).
  unfold finish.
  rewrite process_responses_results, process_responses_tokens,
    process_responses_stdout. simpl.
  replace (add_tokens {| input_tokens := 0; output_tokens := 0 |} (used_tokens rs))
    with (used_tokens rs) by (apply token_usage_eq; simpl; lia).
  rewrite Hc. simpl. rewrite Hcosts. reflexivity.
Qed.

End Main.

Lemma main_startup_failure_witness :
  main (RT := Sample.runtime) (TS := Sample.splitter)
    (FM := Scenario.formatting) (GM := Sample.replay) (PV := Scenario.provider)
    ∅ Scenario.disk
  = (None, [],
     Raise (ValueError "Please set GOOGLE_API_KEY environment variable")).
Proof.
  apply (proj1 (main_startup_failure (RT := Sample.runtime)
                  (TS := Sample.splitter) (FM := Scenario.formatting)
                  (GM := Sample.replay) (PV := Scenario.provider)
                  ∅ Scenario.disk)).
  left. reflexivity.
Defined.

Lemma main_complete_run_witness :
  main (RT := Sample.runtime) (TS := Sample.splitter)
    (FM := Scenario.formatting) (GM := Sample.replay) (PV := Scenario.provider)
    Scenario.env Scenario.disk
  = (Some [],
     [(newline ++ "=== Meeting Analysis ===")%string;
      (newline ++ "Summary:")%string;
      "Test summary";
      (newline ++ "Actions Agreed:")%string;
      "- Action 1";
      (newline ++ "What Went Well:")%string;
      "- Positive 1";
      (newline ++ "Areas for Improvement:")%string;
      "- Improvement 1";
      (newline ++ "=== Cost Analysis ===")%string;
      "Input cost: $0.0075";
      "Output cost: $0.0150";
      "Total cost: $0.0225"],
     Ok tt).
Proof.
  apply (main_complete_run (RT := Sample.runtime) (TS := Sample.splitter)
           (FM := Scenario.formatting) (GM := Sample.replay)
           (PV := Scenario.provider) Scenario.env Scenario.disk
           "test_api_key" "This is a test transcript." Sample.test_rates
           [Sample.good_response] []
           {| summary := "Test summary"; actions := [VStr "Action 1"];
              positives := [VStr "Positive 1"];
              improvements := [VStr "Improvement 1"] |}
           {| input_cost := 0.0075%float; output_cost := 0.015%float;
              total_cost := 0.0225%float |}).
  - reflexivity.
  - discriminate.
  - reflexivity.
  - reflexivity.
  - apply test_transcript_answers.
  - reflexivity.
  - reflexivity.
Defined.

(** ** Which exceptions the scan of the records raises *)

Section LoaderErrors.

Context {RT : Runtime}.

Lemma getitem_raise (v : value) (k : string) (e : exn) :
  getitem v k = Raise e -> scan_exn e = true.
Proof.
  destruct v as [| | | | | |items]; simpl; try (intros [= <-]; reflexivity).
  destruct (lookup_key k items); [discriminate | intros [= <-]; reflexivity].
Qed.

Lemma py_float_raise (v : value) (e : exn) :
  py_float v = Raise e -> scan_exn e = true.
Proof.
  destruct v as [| b | z | f | s | items | items]; simpl;
    try discriminate; try (intros [= <-]; reflexivity).
  - unfold float_of_int. destruct (is_infinite _); [|discriminate].
    intros [= <-]. reflexivity.
  - destruct (float_of_str s); [discriminate | intros [= <-]; reflexivity].
Qed.

Lemma rates_of_raise (r : value) (e : exn) :
  rates_of r = Raise e -> scan_exn e = true.
Proof.
  unfold rates_of.
  destruct (getitem r "Input") as [i|e1] eqn:Hi; simpl;
    [|intros [= <-]; exact (getitem_raise _ _ _ Hi)].
  destruct (py_float i) as [fi|e1] eqn:Hfi; simpl;
    [|intros [= <-]; exact (py_float_raise _ _ Hfi)].
  destruct (getitem r "Output") as [o|e1] eqn:Ho; simpl;
    [|intros [= <-]; exact (getitem_raise _ _ _ Ho)].
  destruct (py_float o) as [fo|e1] eqn:Hfo; simpl;
    [discriminate | intros [= <-]; exact (py_float_raise _ _ Hfo)].
Qed.

Lemma find_prices_raise (models : list value) (e : exn) :
  find_prices models = Raise e -> scan_exn e = true.
Proof.
  induction models as [|m rest IH]; cbn [find_prices].
  - intros [= <-]. reflexivity.
  - destruct (getitem m "Model") as [name|e1] eqn:Hget; simpl;
      [|intros [= <-]; exact (getitem_raise _ _ _ Hget)].
    destruct (eq_str name "Gemini 1.5 Pro"); [apply rates_of_raise | exact IH].
Qed.

Lemma iter_raise (v : value) (e : exn) :
  iter v = Raise e -> scan_exn e = true.
Proof.
  destruct v; simpl; try discriminate; intros [= <-]; reflexivity.
Qed.

(** X25.  Once the price file has been read and parsed, the loader fails
    only in the scan of the records, and only with a [KeyError], a
    [TypeError], a [ValueError] or an [OverflowError]: from a parsed value
    that cannot be iterated, a record that cannot be indexed or lacks a
    key, a rate that [float()] refuses, or the absence of the target
    model. *)
Theorem load_prices_scan_errors (fs : files) (price_file content : string)
  (prices : value) (e : exn) :
  fs !! price_file = Some content ->
  json_loads content = Some prices ->
  _load_prices fs price_file = Raise e ->
  scan_exn e = true.
Proof.
  intros Hfile Hjson. unfold _load_prices, open_read, json_load.
  rewrite Hfile. simpl. rewrite Hjson. simpl.
  destruct (iter prices) as [models|e1] eqn:Hiter; simpl.
  - apply find_prices_raise.
  - intros [= <-]. exact (iter_raise _ _ Hiter).
Qed.

End LoaderErrors.

Lemma load_prices_scan_errors_witness :
  scan_exn (ValueError "Gemini 1.5 Pro pricing not found in price file")
  = true.
Proof.
  apply (load_prices_scan_errors (RT := Sample.runtime) Sample.disk
           "wrong_prices.json" Sample.wrong_prices_text
           (VList [Sample.wrong_record])); reflexivity.
Defined.
